(** * The Multimodal Storyteller: session state machine of [src/main.py]

    A shallow embedding of the Streamlit script [src/main.py]: the Python
    string methods it uses, the values [json.loads] hands back, the three
    helper functions that talk to the remote services
    ([generate_world_bible], [generate_story_chapter],
    [generate_image_stability]), the narration helper
    [text_to_speech_player], and the stage handlers that mutate
    [st.session_state].

    Conventions.
    - A Python [str] is a Rocq [string]; a character is a code point below
      256.
    - Everything that lives outside the file (the two remote services, the
      API key, [json.loads], [str()] of a non-string, the image decoder) is
      a field of the record [Env]; theorems quantify over it.
    - A helper that only talks to the outside returns an outcome together
      with the list of things it did ([event]); a handler additionally
      threads the four story keys of [st.session_state]. *)

From Stdlib Require Import String Ascii List ZArith Bool Arith Lia Floats.
Import ListNotations.
Open Scope list_scope.
Open Scope string_scope.

Set Warnings "-register-all".

(* ================================================================== *)
(** ** Python [str] methods used by the script *)
(* ================================================================== *)

Module PyStr.

(** The double quote, the line feed and the backslash as one-character
    strings. *)
Definition dq : string := String "034" "".
Definition nl : string := String "010" "".
Definition bs : string := String "092" "".
Definition sq : string := String "039" "".

(** [str.isspace] on one character, for code points below 256:
    TAB, LF, VT, FF, CR, FS, GS, RS, US, SPACE, NEL and NBSP. *)
Definition is_space (c : ascii) : bool :=
  let n := nat_of_ascii c in
  (((9 <=? n) && (n <=? 13)) || ((28 <=? n) && (n <=? 32))
   || (n =? 133) || (n =? 160))%nat.

(** [s.lstrip()] *)
Fixpoint lstrip (s : string) : string :=
  match s with
  | EmptyString => EmptyString
  | String c s' => if is_space c then lstrip s' else s
  end.

(** [s.rstrip()] *)
Fixpoint rstrip (s : string) : string :=
  match s with
  | EmptyString => EmptyString
  | String c s' =>
      match rstrip s' with
      | EmptyString => if is_space c then EmptyString else String c EmptyString
      | r => String c r
      end
  end.

(** [s.strip()] *)
Definition strip (s : string) : string := rstrip (lstrip s).

(** Left-to-right scan of [s.replace(old, new)] for a non-empty [old]:
    [skip] counts the characters of a match that are still to be
    consumed. *)
Fixpoint replace_scan (old new : string) (skip : nat) (s : string) : string :=
  match s with
  | EmptyString => EmptyString
  | String c s' =>
      match skip with
      | S k => replace_scan old new k s'
      | O =>
          if prefix old s
          then new ++ replace_scan old new (String.length old - 1) s'
          else String c (replace_scan old new 0 s')
      end
  end.

(** With an empty [old] Python puts [new] before every character and at
    the end. *)
Fixpoint replace_empty (new : string) (s : string) : string :=
  match s with
  | EmptyString => new
  | String c s' => new ++ String c (replace_empty new s')
  end.

(** [s.replace(old, new)] *)
Definition replace (old new s : string) : string :=
  match old with
  | EmptyString => replace_empty new s
  | _ => replace_scan old new 0 s
  end.

(** [sep.join(l)] on a list of strings. *)
Fixpoint join (sep : string) (l : list string) : string :=
  match l with
  | [] => EmptyString
  | [x] => x
  | x :: rest => x ++ sep ++ join sep rest
  end.

(** [p] occurs in [s] as a contiguous block. *)
Definition occurs_in (p s : string) : Prop :=
  exists a b : string, s = a ++ p ++ b.

(** Every character of [s] satisfies [f]. *)
Fixpoint all_chars (f : ascii -> bool) (s : string) : bool :=
  match s with
  | EmptyString => true
  | String c s' => f c && all_chars f s'
  end.

End PyStr.

(* ================================================================== *)
(** ** Python values *)
(* ================================================================== *)

(** The values [json.loads] can return; [PyNone] is also the [None] the
    helpers return on their error paths. A [PyDict] lists its items; a key
    occurs once. *)
Inductive pyobj : Type :=
| PyNone
| PyBool (b : bool)
| PyInt (z : Z)
| PyFloat (f : float)
| PyStr (s : string)
| PyList (l : list pyobj)
| PyDict (items : list (string * pyobj)).

(** The exceptions the script can meet. *)
Inductive exn : Type :=
| KeyError
| IndexError
| TypeError
| JSONDecodeError
| HTTPError
| UnboundLocalError (var : string)
| OtherError.

(** [bool(v)]: what [if v:] tests. *)
Definition truthy (v : pyobj) : bool :=
  match v with
  | PyNone => false
  | PyBool b => b
  | PyInt z => negb (Z.eqb z 0)
  | PyFloat f => negb (PrimFloat.eqb f PrimFloat.zero)
  | PyStr s => negb (String.eqb s "")
  | PyList l => match l with [] => false | _ :: _ => true end
  | PyDict d => match d with [] => false | _ :: _ => true end
  end.

Fixpoint dict_get (d : list (string * pyobj)) (k : string) : option pyobj :=
  match d with
  | [] => None
  | (k', v) :: d' => if String.eqb k' k then Some v else dict_get d' k
  end.

(** [v[k]] for a string key [k]. *)
Definition getitem_key (v : pyobj) (k : string) : exn + pyobj :=
  match v with
  | PyDict d => match dict_get d k with
                | Some x => inr x
                | None => inl KeyError
                end
  | _ => inl TypeError
  end.

(** [v[i]] for a non-negative integer [i]. A dict decoded from JSON has only
    string keys, so an integer subscript is a [KeyError]. *)
Definition getitem_index (v : pyobj) (i : nat) : exn + pyobj :=
  match v with
  | PyList l => match nth_error l i with
                | Some x => inr x
                | None => inl IndexError
                end
  | PyStr s => match String.get i s with
               | Some c => inr (PyStr (String c EmptyString))
               | None => inl IndexError
               end
  | PyDict _ => inl KeyError
  | _ => inl TypeError
  end.

(** [" ".join(l)] on a list of Python values: a [TypeError] unless every
    item is a [str]. *)
Fixpoint all_str (l : list pyobj) : exn + list string :=
  match l with
  | [] => inr []
  | PyStr s :: rest =>
      match all_str rest with
      | inr ss => inr (s :: ss)
      | inl e => inl e
      end
  | _ :: _ => inl TypeError
  end.

Definition join_values (sep : string) (l : list pyobj) : exn + string :=
  match all_str l with
  | inr ss => inr (PyStr.join sep ss)
  | inl e => inl e
  end.

(* ================================================================== *)
(** ** What lies outside the script *)
(* ================================================================== *)

(** A decoded [PIL.Image]. *)
Inductive Image : Type := PILImage (raster : string).

(** [genai.types.GenerationConfig(temperature=...)] *)
Record GenerationConfig : Type := { temperature : float }.

(** [model.generate_content(...)]: it raises, or it returns a response
    whose [.text] is a string. *)
Inductive llm_reply : Type :=
| LlmRaises (e : exn)
| LlmResponse (response_text : string).

(** [requests.post(...)]: it raises (a connection-level error), or it
    returns a response with a status code and a body. *)
Inductive http_reply : Type :=
| PostRaises (e : exn)
| PostResponse (status_code : Z) (body : string).

Record Env : Type := {
  (** the Gemini model, by prompt and generation config *)
  generate_content : string -> option GenerationConfig -> llm_reply;
  (** [json.loads] and [response.json()]; [None] is a decode error *)
  json_loads : string -> option pyobj;
  (** [str(v)] for a value that is not a [str] *)
  py_str : pyobj -> string;
  (** the module-level [STABILITY_API_KEY] *)
  STABILITY_API_KEY : option string;
  (** the Stability endpoint, by the text of the prompt sent *)
  requests_post : string -> http_reply;
  (** [Image.open(io.BytesIO(base64.b64decode(b)))]; [None] when either
      step raises *)
  open_image : string -> option Image
}.

(** How an f-string renders [{v}]. *)
Definition fmt (env : Env) (v : pyobj) : string :=
  match v with
  | PyStr s => s
  | _ => py_str env v
  end.

(** How an f-string renders [{world_bible}]: the key holds [None] or a
    [str]. *)
Definition fmt_opt (o : option string) : string :=
  match o with
  | Some s => s
  | None => "None"
  end.

(** [response.raise_for_status()] raises for 4xx and 5xx. *)
Definition raise_for_status (status_code : Z) : bool :=
  ((400 <=? status_code) && (status_code <? 600))%Z.

(** [not STABILITY_API_KEY] *)
Definition key_missing (k : option string) : bool :=
  match k with
  | None => true
  | Some s => String.eqb s ""
  end.

(* ================================================================== *)
(** ** Effects *)
(* ================================================================== *)

(** The texts of [st.error] and [st.warning]; an exception's text is kept
    as the exception. *)
Inductive message : Type :=
| ErrProcessingAIResponse (e : exn)
| WarnStabilityKeyNotFound
| ErrHTTPFromStability (status_code : Z)
| ErrAPIResponse
| ErrRawAPIResponseText
| ErrParsingStabilityResponse (e : exn)
| ErrDebugHint
| ErrUnexpectedStability (e : exn).

(** What a run does that can be seen from outside: the calls to the two
    services and the Streamlit elements it draws. *)
Inductive event : Type :=
| call_generate_content (prompt : string) (cfg : option GenerationConfig)
| call_requests_post (text_prompt : string)
| st_error (m : message)
| st_warning (m : message)
| st_code (body : string)
| st_json (v : pyobj)
| st_text (s : string)
| st_image (i : Image)
| st_markdown (s : string)
| components_html (html : string).

(** How a piece of the script ends: it returns, an exception leaves it, or
    [st.rerun()] stops the run. *)
Inductive outcome (A : Type) : Type :=
| Returns (a : A)
| Raises (e : exn)
| Reruns.
Arguments Returns {A} a.
Arguments Raises {A} e.
Arguments Reruns {A}.

(** A helper that never touches [st.session_state]. *)
Definition Eff (A : Type) : Type := (outcome A * list event)%type.

(* ================================================================== *)
(** ** The helper functions (section 2 of the script) *)
(* ================================================================== *)

Import PyStr.

(** The f-string of [generate_world_bible]. *)
Definition world_bible_prompt (theme archetype contradiction : string) : string :=
  nl ++ "    You are a world-building AI. Create a 'World Bible' for a new story. This document should be a rich, one-page summary establishing the world's history, main conflicts, character motivations, and tone. It must be consistent and creative."
  ++ nl ++ nl
  ++ "    Core Theme: " ++ theme ++ nl
  ++ "    Protagonist Archetype: " ++ archetype ++ nl
  ++ "    The World's Core Contradiction: " ++ contradiction ++ nl ++ nl
  ++ "    Generate the World Bible based on these inputs." ++ nl
  ++ "    ".

(** [generate_world_bible(theme, archetype, contradiction)]: no [try]
    around the call. *)
Definition generate_world_bible (env : Env) (theme archetype contradiction : string)
  : Eff string :=
  let prompt := world_bible_prompt theme archetype contradiction in
  match generate_content env prompt None with
  | LlmResponse response_text =>
      (Returns response_text, [call_generate_content prompt None])
  | LlmRaises e =>
      (Raises e, [call_generate_content prompt None])
  end.

(** The four fixed pieces of the f-string of [generate_story_chapter]. *)
Definition chapter_prompt_head : string :=
  nl ++ "    You are a multi-persona Storytelling Engine. Follow these steps precisely." ++ nl
  ++ "    The user's choice for the last chapter was: " ++ dq.

Definition chapter_prompt_context : string :=
  dq ++ "." ++ nl ++ "    The full story context so far is: " ++ dq.

Definition chapter_prompt_bible : string :=
  dq ++ "." ++ nl ++ "    The secret World Bible for this universe is: " ++ dq.

Definition chapter_prompt_steps : string :=
  dq ++ "." ++ nl ++ nl
  ++ "    Step 1: Act as a Literary Artist. Write a rich, descriptive paragraph expanding on the user's choice." ++ nl
  ++ "    Step 2: Act as a Plot Theorist. Based on the new paragraph, generate three distinct, single-sentence plot choices for the user. One must be a 'Wildcard'." ++ nl
  ++ "    Step 3: Act as an Art Director. Based on the paragraph from Step 1, write a concise, descriptive prompt for an AI image generator (comma-separated keywords)." ++ nl
  ++ "    Step 4: Format your entire response as a single, raw JSON object with NO markdown formatting, using these exact keys: "
  ++ dq ++ "narrative_chapter" ++ dq ++ ", " ++ dq ++ "next_choices" ++ dq
  ++ ", and " ++ dq ++ "image_prompt" ++ dq ++ "." ++ nl
  ++ "    ".

Definition chapter_prompt (env : Env) (story_context : string)
    (world_bible : option string) (user_choice : pyobj) : string :=
  chapter_prompt_head ++ fmt env user_choice
  ++ chapter_prompt_context ++ story_context
  ++ chapter_prompt_bible ++ fmt_opt world_bible
  ++ chapter_prompt_steps.

(** [response.text.strip().replace("```json", "").replace("```", "").strip()] *)
Definition clean_json_string (response_text : string) : string :=
  strip (replace "```" "" (replace "```json" "" (strip response_text))).

(** [temperature=0.9], as the binary64 value Python reads. *)
Definition chapter_config : GenerationConfig := {| temperature := 0x1.ccccccccccccdp-1%float |}.

(** [generate_story_chapter(story_context, world_bible, user_choice)].
    The [except] clause reads [response.text]; when [generate_content]
    itself raised, [response] was never assigned, and that read raises
    [UnboundLocalError] out of the handler. *)
Definition generate_story_chapter (env : Env) (story_context : string)
    (world_bible : option string) (user_choice : pyobj) : Eff pyobj :=
  let prompt := chapter_prompt env story_context world_bible user_choice in
  let call := call_generate_content prompt (Some chapter_config) in
  match generate_content env prompt (Some chapter_config) with
  | LlmResponse response_text =>
      let cleaned_json_string := clean_json_string response_text in
      match json_loads env cleaned_json_string with
      | Some data => (Returns data, [call])
      | None =>
          (Returns PyNone,
           [call; st_error (ErrProcessingAIResponse JSONDecodeError);
            st_code response_text])
      end
  | LlmRaises e =>
      (Raises (UnboundLocalError "response"),
       [call; st_error (ErrProcessingAIResponse e)])
  end.

(** [data["artifacts"][0]["base64"]] *)
Definition artifact_base64 (data : pyobj) : exn + pyobj :=
  match getitem_key data "artifacts" with
  | inl e => inl e
  | inr artifacts =>
      match getitem_index artifacts 0 with
      | inl e => inl e
      | inr first => getitem_key first "base64"
      end
  end.

(** [generate_image_stability(prompt)]: every path ends in [return]. *)
Definition generate_image_stability (env : Env) (prompt : pyobj) : Eff (option Image) :=
  if key_missing (STABILITY_API_KEY env)
  then (Returns None, [st_warning WarnStabilityKeyNotFound])
  else
    let text_prompt := "cinematic, epic, high detail, masterpiece, " ++ fmt env prompt in
    let call := call_requests_post text_prompt in
    match requests_post env text_prompt with
    | PostRaises e =>
        (Returns None, [call; st_error (ErrUnexpectedStability e)])
    | PostResponse status_code body =>
        if raise_for_status status_code
        then
          (* except requests.exceptions.HTTPError *)
          match json_loads env body with
          | Some error_details =>
              (Returns None,
               [call; st_error (ErrHTTPFromStability status_code);
                st_error ErrAPIResponse; st_json error_details])
          | None =>
              (Returns None,
               [call; st_error (ErrHTTPFromStability status_code);
                st_error ErrRawAPIResponseText; st_text body])
          end
        else
          match json_loads env body with
          | None =>
              (Returns None, [call; st_error (ErrUnexpectedStability JSONDecodeError)])
          | Some data =>
              match artifact_base64 data with
              | inr (PyStr image_b64) =>
                  match open_image env image_b64 with
                  | Some img => (Returns (Some img), [call])
                  | None => (Returns None, [call; st_error (ErrUnexpectedStability OtherError)])
                  end
              | inr _ =>
                  (Returns None, [call; st_error (ErrUnexpectedStability TypeError)])
              | inl KeyError =>
                  (Returns None,
                   [call; st_error (ErrParsingStabilityResponse KeyError);
                    st_error ErrDebugHint; st_json data])
              | inl IndexError =>
                  (Returns None,
                   [call; st_error (ErrParsingStabilityResponse IndexError);
                    st_error ErrDebugHint; st_json data])
              | inl e =>
                  (Returns None, [call; st_error (ErrUnexpectedStability e)])
              end
          end
    end.

(** [text.replace("'", "\\'").replace('"', '\\"').replace("\n", " ").strip()] *)
Definition safe_text (text : string) : string :=
  strip (replace nl " " (replace dq (bs ++ dq) (replace sq (bs ++ sq) text))).

(** The two fixed pieces of the f-string of [text_to_speech_player]. *)
Definition speech_script_head : string :=
  nl ++ "        <script>" ++ nl
  ++ "            const synth = window.speechSynthesis;" ++ nl
  ++ "            if (synth.speaking) { synth.cancel(); }" ++ nl
  ++ "            const utterance = new SpeechSynthesisUtterance(" ++ dq.

Definition speech_script_tail : string :=
  dq ++ ");" ++ nl
  ++ "            utterance.pitch = 1;" ++ nl
  ++ "            utterance.rate = 0.9;" ++ nl
  ++ "            synth.speak(utterance);" ++ nl
  ++ "        </script>" ++ nl
  ++ "    ".

(** [text_to_speech_player(text)] *)
Definition text_to_speech_player (text : string) : Eff unit :=
  (Returns tt,
   [components_html (speech_script_head ++ safe_text text ++ speech_script_tail)]).

(* ================================================================== *)
(** ** The session state (lines 216-220) *)
(* ================================================================== *)

(** The three values [st.session_state.app_stage] takes. *)
Inductive Stage : Type := world_forge | story_start | story_cycle.

Definition Stage_eqb (a b : Stage) : bool :=
  match a, b with
  | world_forge, world_forge | story_start, story_start
  | story_cycle, story_cycle => true
  | _, _ => false
  end.

(** One item of [story_chapters]: the dict [{"text": ..., "image": ...}]. *)
Record Chapter : Type := { text : pyobj; image : option Image }.

(** The four story keys of [st.session_state]. *)
Record StoryState : Type := {
  app_stage : Stage;
  world_bible : option string;
  story_chapters : list Chapter;
  latest_choices : pyobj
}.

(** The values written when ['app_stage'] is not in the session. *)
Definition fresh_state : StoryState :=
  {| app_stage := world_forge;
     world_bible := None;
     story_chapters := [];
     latest_choices := PyList [] |}.

(** The story keys are present ([Some]) or absent ([None]). *)
Definition Session : Type := option StoryState.

(** [if 'app_stage' not in st.session_state: ...] *)
Definition init_session (ss : Session) : StoryState :=
  match ss with
  | None => fresh_state
  | Some s => s
  end.

(** Field updates. *)
Definition set_app_stage (g : Stage) (s : StoryState) : StoryState :=
  {| app_stage := g; world_bible := world_bible s;
     story_chapters := story_chapters s; latest_choices := latest_choices s |}.

Definition set_world_bible (w : option string) (s : StoryState) : StoryState :=
  {| app_stage := app_stage s; world_bible := w;
     story_chapters := story_chapters s; latest_choices := latest_choices s |}.

Definition set_story_chapters (l : list Chapter) (s : StoryState) : StoryState :=
  {| app_stage := app_stage s; world_bible := world_bible s;
     story_chapters := l; latest_choices := latest_choices s |}.

Definition set_latest_choices (v : pyobj) (s : StoryState) : StoryState :=
  {| app_stage := app_stage s; world_bible := world_bible s;
     story_chapters := story_chapters s; latest_choices := v |}.

(** [story_chapters.append(ch)] *)
Definition append_chapter (ch : Chapter) (s : StoryState) : StoryState :=
  set_story_chapters (story_chapters s ++ [ch])%list s.

(** [l[i]["image"] = img] on the list itself. *)
Fixpoint set_image_at (i : nat) (img : option Image) (l : list Chapter)
  : option (list Chapter) :=
  match l, i with
  | [], _ => None
  | ch :: rest, O => Some ({| text := text ch; image := img |} :: rest)
  | ch :: rest, S j =>
      match set_image_at j img rest with
      | Some rest' => Some (ch :: rest')
      | None => None
      end
  end.

Arguments set_image_at : simpl never.

(* ================================================================== *)
(** ** Handlers: state, events and exceptions *)
(* ================================================================== *)

(** A piece of the script that reads and writes the story keys. Whatever it
    wrote before an exception or a rerun stays written. *)
Definition M (A : Type) : Type :=
  StoryState -> (outcome A * StoryState * list event)%type.

Definition ret {A : Type} (a : A) : M A :=
  fun s => (Returns a, s, []).

Definition bind {A B : Type} (m : M A) (k : A -> M B) : M B :=
  fun s =>
    match m s with
    | (Returns a, s1, ev1) =>
        match k a s1 with
        | (r, s2, ev2) => (r, s2, (ev1 ++ ev2)%list)
        end
    | (Raises e, s1, ev1) => (Raises e, s1, ev1)
    | (Reruns, s1, ev1) => (Reruns, s1, ev1)
    end.

Declare Scope script_scope.
Delimit Scope script_scope with script.
Notation "x <- m ;; k" := (bind m (fun x => k))
  (at level 61, m at next level, right associativity) : script_scope.
Notation "m ;; k" := (bind m (fun _ => k))
  (at level 61, right associativity) : script_scope.
Open Scope script_scope.

Definition get_state : M StoryState := fun s => (Returns s, s, []).

Definition modify (f : StoryState -> StoryState) : M unit :=
  fun s => (Returns tt, f s, []).

(** Run a helper. *)
Definition call {A : Type} (h : Eff A) : M A :=
  fun s => (fst h, s, snd h).

(** A subscript that may raise. *)
Definition subscript {A : Type} (r : exn + A) : M A :=
  fun s =>
    match r with
    | inr a => (Returns a, s, [])
    | inl e => (Raises e, s, [])
    end.

Definition emit (ev : list event) : M unit :=
  fun s => (Returns tt, s, ev).

(** [st.rerun()] *)
Definition st_rerun {A : Type} : M A := fun s => (Reruns, s, []).

(** [st.session_state.story_chapters[i]["image"] = img] *)
Definition assign_image (i : nat) (img : option Image) : M unit :=
  fun s =>
    match set_image_at i img (story_chapters s) with
    | Some l => (Returns tt, set_story_chapters l s, [])
    | None => (Raises IndexError, s, [])
    end.

(* ================================================================== *)
(** ** The pages (section 3 of the script) *)
(* ================================================================== *)

(** What the user did to trigger this run of the script. *)
Inductive action : Type :=
| no_action
| click_set_the_stage (theme archetype contradiction : string)
| click_start_the_saga (initial_prompt : string)
| click_narrate
| click_pause
| click_stop
| click_weave_next_chapter (choice_made : pyobj)
| click_restart.

(** Lines 231-234: the body of [if st.form_submit_button("Set the Stage")]. *)
Definition world_forge_submit (env : Env) (theme archetype contradiction : string)
  : M unit :=
  bible <- call (generate_world_bible env theme archetype contradiction) ;;
  modify (set_world_bible (Some bible)) ;;
  modify (set_app_stage story_start) ;;
  st_rerun.

(** Lines 244-252: the body of
    [if st.form_submit_button("Start the Saga") and initial_prompt]. *)
Definition story_start_submit (env : Env) (initial_prompt : string) : M unit :=
  modify (append_chapter {| text := PyStr initial_prompt; image := None |}) ;;
  s <- get_state ;;
  ai_response <- call (generate_story_chapter env "" (world_bible s)
                         (PyStr initial_prompt)) ;;
  if truthy ai_response then
    image_prompt <- subscript (getitem_key ai_response "image_prompt") ;;
    new_image <- call (generate_image_stability env image_prompt) ;;
    assign_image 0 new_image ;;
    narrative_chapter <- subscript (getitem_key ai_response "narrative_chapter") ;;
    modify (append_chapter {| text := narrative_chapter; image := None |}) ;;
    next_choices <- subscript (getitem_key ai_response "next_choices") ;;
    modify (set_latest_choices next_choices) ;;
    modify (set_app_stage story_cycle) ;;
    st_rerun
  else ret tt.

(** Lines 275-283: the body of
    [if st.form_submit_button("Weave Next Chapter")]. *)
Definition story_cycle_submit (env : Env) (choice_made : pyobj) : M unit :=
  s <- get_state ;;
  story_so_far <- subscript (join_values " " (map text (story_chapters s))) ;;
  ai_response <- call (generate_story_chapter env story_so_far (world_bible s)
                         choice_made) ;;
  if truthy ai_response then
    image_prompt <- subscript (getitem_key ai_response "image_prompt") ;;
    new_image <- call (generate_image_stability env image_prompt) ;;
    narrative_chapter <- subscript (getitem_key ai_response "narrative_chapter") ;;
    modify (append_chapter {| text := narrative_chapter; image := new_image |}) ;;
    next_choices <- subscript (getitem_key ai_response "next_choices") ;;
    modify (set_latest_choices next_choices) ;;
    st_rerun
  else ret tt.

(** Lines 256-260: one chapter drawn. *)
Definition render_chapter (env : Env) (ch : Chapter) : list event :=
  (match image ch with
   | Some i => [st_image i]
   | None => []
   end
   ++ [st_markdown ("*" ++ fmt env (text ch) ++ "*"); st_markdown "---"])%list.

(** Lines 254-283: the page of stage [story_cycle]. *)
Definition story_cycle_page (env : Env) (a : action) : M unit :=
  s <- get_state ;;
  emit (flat_map (render_chapter env) (story_chapters s)) ;;
  match story_chapters s with
  | [] => ret tt
  | _ :: _ =>
      full_story_text <- subscript (join_values " " (map text (story_chapters s))) ;;
      match a with
      | click_narrate => call (text_to_speech_player full_story_text)
      | click_pause =>
          emit [components_html "<script>window.speechSynthesis.pause();</script>"]
      | click_stop =>
          emit [components_html "<script>window.speechSynthesis.cancel();</script>"]
      | _ => ret tt
      end
  end ;;
  if truthy (latest_choices s) then
    match a with
    | click_weave_next_chapter choice_made => story_cycle_submit env choice_made
    | _ => ret tt
    end
  else ret tt.

(** Lines 222-283: the [if / elif / elif] on [app_stage]. *)
Definition page (env : Env) (a : action) : M unit :=
  s <- get_state ;;
  match app_stage s with
  | world_forge =>
      match a with
      | click_set_the_stage theme archetype contradiction =>
          world_forge_submit env theme archetype contradiction
      | _ => ret tt
      end
  | story_start =>
      match a with
      | click_start_the_saga initial_prompt =>
          if negb (String.eqb initial_prompt "")
          then story_start_submit env initial_prompt
          else ret tt
      | _ => ret tt
      end
  | story_cycle => story_cycle_page env a
  end.

(** Lines 286-292: the restart button is drawn outside [world_forge]; a
    click deletes the four keys and reruns. *)
Definition restart_section (a : action) (s : StoryState) : outcome unit * Session :=
  if negb (Stage_eqb (app_stage s) world_forge) then
    match a with
    | click_restart => (Reruns, None)
    | _ => (Returns tt, Some s)
    end
  else (Returns tt, Some s).

(** One run of the script from line 216 on. *)
Definition script (env : Env) (a : action) (ss : Session)
  : outcome unit * Session * list event :=
  match page env a (init_session ss) with
  | (Returns _, s, ev) =>
      match restart_section a s with
      | (r, ss') => (r, ss', ev)
      end
  | (r, s, ev) => (r, Some s, ev)
  end.

(** A user action and the rerun it may ask for. The rerun has no action of
    its own. *)
Definition interact (env : Env) (a : action) (ss : Session) : Session * list event :=
  match script env a ss with
  | (Reruns, ss1, ev1) =>
      match script env no_action ss1 with
      | (_, ss2, ev2) => (ss2, (ev1 ++ ev2)%list)
      end
  | (_, ss1, ev1) => (ss1, ev1)
  end.

(** [restart()]: the click on the restart button and the rerun that
    follows, as far as the story keys go. *)
Definition restart (s : StoryState) : StoryState :=
  init_session (snd (restart_section click_restart s)).

(** What [st.radio("Choose a path:", options)] can return. For a list it is
    one of its items; for any other value Streamlit decides. *)
Inductive radio_returns : pyobj -> pyobj -> Prop :=
| radio_list : forall (options : list pyobj) (c : pyobj),
    In c options -> radio_returns (PyList options) c
| radio_other : forall (options c : pyobj),
    (forall l, options <> PyList l) -> radio_returns options c.

(** An action the page in front of the user lets them take. *)
Definition offered (s : StoryState) (a : action) : Prop :=
  match a with
  | click_weave_next_chapter c => radio_returns (latest_choices s) c
  | _ => True
  end.

(** The sessions a user can bring about, whatever the services answer. *)
Inductive reachable : Session -> Prop :=
| reach_new : reachable None
| reach_step : forall (env : Env) (a : action) (ss : Session),
    reachable ss ->
    offered (init_session ss) a ->
    reachable (fst (interact env a ss)).

Section ChoiceForm.

(** What [st.radio] makes of options that are no list is Streamlit's own
    business. *)
Variable radio_of_other : pyobj -> nat -> exn + pyobj.

(** [st.radio("Choose a path:", options, key="choice_radio")]. The browser
    reports the position of the selected item, the first one until the
    user picks another, and the widget hands back [options[position]]: one
    of the options, or the [IndexError] of a position the list does not
    have. *)
Definition st_radio (options : pyobj) (selected : nat) : exn + pyobj :=
  match options with
  | PyList l =>
      match nth_error l selected with
      | Some choice => inr choice
      | None => inl IndexError
      end
  | other => radio_of_other other selected
  end.

(** Lines 271-283: the choice form. [selected] is the radio position the
    browser reports and [pressed] tells whether Weave Next Chapter was
    pressed for this run. Nothing stands between the radio and the
    handler: [choice_made] is what [st.radio] returned. *)
Definition choice_form (env : Env) (selected : nat) (pressed : bool) : M unit :=
  s <- get_state ;;
  if truthy (latest_choices s) then
    choice_made <- subscript (st_radio (latest_choices s) selected) ;;
    if pressed then story_cycle_submit env choice_made else ret tt
  else ret tt.

End ChoiceForm.

(* ================================================================== *)
(** ** Concrete surroundings for the examples *)
(* ================================================================== *)

Module Demo.

(** A reply of the text model, fenced the way the model tends to do it. *)
Definition reply_json : string :=
  "{" ++ dq ++ "narrative_chapter" ++ dq ++ ": " ++ dq ++ "The clock stopped." ++ dq
  ++ ", " ++ dq ++ "next_choices" ++ dq ++ ": ["
  ++ dq ++ "Open the hatch" ++ dq ++ ", " ++ dq ++ "Wait" ++ dq ++ ", "
  ++ dq ++ "Run" ++ dq ++ "], "
  ++ dq ++ "image_prompt" ++ dq ++ ": " ++ dq ++ "starship, clock" ++ dq ++ "}".

Definition reply_text : string :=
  "```json" ++ nl ++ reply_json ++ nl ++ "```" ++ nl.

(** What [json.loads] makes of [reply_json]. *)
Definition reply : pyobj :=
  PyDict [("narrative_chapter", PyStr "The clock stopped.");
          ("next_choices", PyList [PyStr "Open the hatch"; PyStr "Wait"; PyStr "Run"]);
          ("image_prompt", PyStr "starship, clock")].

Definition garbled_text : string := "I cannot continue this story.".

(** A decoder that agrees with [json.loads] on the texts used here:
    [reply_json] decodes to [reply], [garbled_text] is no JSON. *)
Definition loads (s : string) : option pyobj :=
  if String.eqb s reply_json then Some reply else None.

(** The text model answers every chapter prompt with [chapter_text]; no
    Stability key is configured. *)
Definition env_with (chapter_text : string) : Env :=
  {| generate_content := fun _ cfg =>
       match cfg with
       | None => LlmResponse "A city of bored wizards."
       | Some _ => LlmResponse chapter_text
       end;
     json_loads := loads;
     py_str := fun _ => "?";
     STABILITY_API_KEY := None;
     requests_post := fun _ => PostRaises OtherError;
     open_image := fun _ => None |}.

Definition env_ok : Env := env_with reply_text.
Definition env_garbled : Env := env_with garbled_text.

(** The text model is down: every call raises. *)
Definition env_down : Env :=
  {| generate_content := fun _ _ => LlmRaises OtherError;
     json_loads := loads;
     py_str := fun _ => "?";
     STABILITY_API_KEY := None;
     requests_post := fun _ => PostRaises OtherError;
     open_image := fun _ => None |}.

Definition opening : string := "The last starship captain woke.".

(** The state after the world was forged. *)
Definition forged : StoryState :=
  {| app_stage := story_start;
     world_bible := Some "A city of bored wizards.";
     story_chapters := [];
     latest_choices := PyList [] |}.

(** The state after a first successful opening. *)
Definition begun : StoryState :=
  {| app_stage := story_cycle;
     world_bible := Some "A city of bored wizards.";
     story_chapters := [ {| text := PyStr opening; image := None |};
                         {| text := PyStr "The clock stopped."; image := None |} ];
     latest_choices := PyList [PyStr "Open the hatch"; PyStr "Wait"; PyStr "Run"] |}.

(** The state after an opening whose narrative call failed. *)
Definition stalled : StoryState :=
  {| app_stage := story_start;
     world_bible := Some "A city of bored wizards.";
     story_chapters := [ {| text := PyStr opening; image := None |} ];
     latest_choices := PyList [] |}.

Definition set_the_stage : action :=
  click_set_the_stage "Revenge" "The Outcast"
    "A city of high magic where everyone is profoundly bored.".

End Demo.

(* ================================================================== *)
(** ** Running the handlers *)
(* ================================================================== *)

(** The state a handler leaves, its outcome and what it did. *)
Definition final {A : Type} (m : M A) (s : StoryState) : StoryState := snd (fst (m s)).
Definition result {A : Type} (m : M A) (s : StoryState) : outcome A := fst (fst (m s)).
Definition trace {A : Type} (m : M A) (s : StoryState) : list event := snd (m s).

(** The narrative call did not hand back a usable record: it raised, or
    what it returned fails [if ai_response:]. *)
Definition narrative_failed (r : outcome pyobj) : Prop :=
  match r with
  | Returns v => truthy v = false
  | _ => True
  end.

Arguments story_cycle_submit : simpl never.
Arguments story_start_submit : simpl never.
Arguments world_forge_submit : simpl never.
Arguments text_to_speech_player : simpl never.

(** Open a handler down to its matches. *)
Ltac run_handler :=
  unfold final, result, trace, story_cycle_submit, story_start_submit,
    world_forge_submit, bind, get_state, subscript, call, modify, st_rerun,
    ret, assign_image, emit.

(** Open a page, leaving the handlers closed. *)
Ltac run_page :=
  unfold final, result, trace, page, story_cycle_page, bind, get_state,
    subscript, call, emit, ret.

(** Case analysis along every path: split on the innermost scrutinee, one
    at a time. *)
Ltac split_paths :=
  repeat (simpl;
          match goal with
          | |- context [match ?x with _ => _ end] =>
              lazymatch x with
              | context [match _ with _ => _ end] => fail
              | _ => destruct x eqn:?
              end
          end).

(** The [except] clause of [generate_story_chapter] ran to its end: the
    raw text was shown with [st.code] and [None] was returned. *)
Definition recovered_with_none (out : Eff pyobj) : Prop :=
  fst out = Returns PyNone /\ exists body, In (st_code body) (snd out).

(** A character that is not a backtick. *)
Definition not_backtick (c : ascii) : bool := negb (Ascii.eqb c "`").

(** The ways the illustration call can fail: no credential, no connection,
    a 4xx or 5xx answer, or a 2xx answer whose body is no JSON, lacks
    [artifacts[0].base64], holds something other than a string there, or
    holds a string that does not decode to an image. *)
Inductive illustration_fails (env : Env) (prompt : pyobj) : Prop :=
| fails_unconfigured :
    key_missing (STABILITY_API_KEY env) = true ->
    illustration_fails env prompt
| fails_unreachable : forall e,
    key_missing (STABILITY_API_KEY env) = false ->
    requests_post env ("cinematic, epic, high detail, masterpiece, " ++ fmt env prompt)
    = PostRaises e ->
    illustration_fails env prompt
| fails_upstream_rejected : forall status_code body,
    key_missing (STABILITY_API_KEY env) = false ->
    requests_post env ("cinematic, epic, high detail, masterpiece, " ++ fmt env prompt)
    = PostResponse status_code body ->
    raise_for_status status_code = true ->
    illustration_fails env prompt
| fails_malformed : forall status_code body,
    key_missing (STABILITY_API_KEY env) = false ->
    requests_post env ("cinematic, epic, high detail, masterpiece, " ++ fmt env prompt)
    = PostResponse status_code body ->
    raise_for_status status_code = false ->
    (forall data image_b64 img,
        json_loads env body = Some data ->
        artifact_base64 data = inr (PyStr image_b64) ->
        open_image env image_b64 <> Some img) ->
    illustration_fails env prompt.

(** What holds of the story keys in every session a user can bring
    about: the first stage is always the fresh state, the second has not
    seen any choices yet, and the third holds at least the opening and its
    continuation. *)
Definition stage_invariant (s : StoryState) : Prop :=
  match app_stage s with
  | world_forge => s = fresh_state
  | story_start => latest_choices s = PyList []
  | story_cycle => 2 <= List.length (story_chapters s)
  end.

(** A character that ends or breaks a JavaScript string literal when it
    stands there unescaped: either quote, or a line feed. *)
Definition breaks_literal (c : ascii) : bool :=
  Ascii.eqb c "034" || Ascii.eqb c "039" || Ascii.eqb c "010".

(** Reading the body of a JavaScript string literal from left to right, a
    backslash takes the next character with it. [has_unescaped false body]
    tells whether a breaking character is met outside such a pair. *)
Fixpoint has_unescaped (escaped : bool) (body : string) : bool :=
  match body with
  | EmptyString => false
  | String c rest =>
      if escaped then has_unescaped false rest
      else if Ascii.eqb c "092" then has_unescaped true rest
      else breaks_literal c || has_unescaped false rest
  end.

(** [s.replace(c, new)] for a one-character [c], character by character. *)
Fixpoint subst_char (c : ascii) (new : string) (s : string) : string :=
  match s with
  | EmptyString => EmptyString
  | String x rest =>
      if Ascii.eqb c x then new ++ subst_char c new rest
      else String x (subst_char c new rest)
  end.

(** The three replacements of [safe_text], before [strip]. *)
Definition escape_text (text : string) : string :=
  subst_char "010" " " (subst_char "034" (bs ++ dq) (subst_char "039" (bs ++ sq) text)).

(** A text made of plain characters, each passing [plain], and of pairs of
    a backslash and a character that is no blank. *)
Inductive escaped_body (plain : ascii -> bool) : string -> Prop :=
| escaped_nil : escaped_body plain ""
| escaped_plain : forall c rest,
    plain c = true ->
    escaped_body plain rest ->
    escaped_body plain (String c rest)
| escaped_pair : forall c rest,
    is_space c = false ->
    escaped_body plain rest ->
    escaped_body plain (String "092" (String c rest)).

(** Neither a backslash nor a breaking character. *)
Definition harmless (c : ascii) : bool :=
  negb (Ascii.eqb c "092") && negb (breaks_literal c).

(** Every quote of the text comes right after a backslash. *)
Fixpoint quotes_follow_backslash (after_backslash : bool) (s : string) : bool :=
  match s with
  | EmptyString => true
  | String c rest =>
      (if Ascii.eqb c "034" || Ascii.eqb c "039" then after_backslash else true)
      && quotes_follow_backslash (Ascii.eqb c "092") rest
  end.

(* ================================================================== *)
(** ** Login and keys (sections 0 and 1 of the script) *)
(* ================================================================== *)

(** Where credentials and keys come from: [st.secrets], the environment,
    and [hashlib.sha256(...).hexdigest()]. A secret that is [None] is one
    whose lookup raises [KeyError] or [FileNotFoundError]. *)
Record Host : Type := {
  (** [st.secrets["auth"]["usernames"]] *)
  secrets_usernames : option pyobj;
  (** [st.secrets["auth"]["passwords"]] *)
  secrets_passwords : option pyobj;
  (** [st.secrets[name]] for a top-level entry that is a string *)
  secret : string -> option string;
  (** [os.environ] as the process found it, with what [load_dotenv()]
      added at line 16 *)
  environ : string -> option string;
  (** [hashlib.sha256(password.encode()).hexdigest()] *)
  sha256_hexdigest : string -> string
}.

(** [os.getenv(name)] where the script calls it. Each of these calls sits
    in an [except] clause behind a read of [st.secrets], and Streamlit, on
    loading the secrets, assigns every top-level string entry to
    [os.environ] under its own name, over what was there. So a string
    secret is what [os.getenv] finds; without one it is the variable of
    the process. *)
Definition getenv (host : Host) (name : string) : option string :=
  match secret host name with
  | Some value => Some value
  | None => environ host name
  end.

(** What [check_login] can raise: one of the exceptions above, or the
    [AttributeError] of calling [.index] on a dict. *)
Inductive login_exn : Type :=
| Builtin (e : exn)
| AttributeError.

(** What the login part draws and prints. *)
Inductive sidebar_event : Type :=
| print_fallback_info
| st_error_local_credentials
| sidebar_error_invalid_credentials
| sidebar_success_welcome (user : string)
| st_error_google_key_not_found.

(** The lowest index at which [p] occurs in [s]: [s.find(p)]. *)
Fixpoint find (p s : string) : option nat :=
  if prefix p s then Some 0
  else match s with
       | EmptyString => None
       | String _ s' => option_map S (find p s')
       end.

(** [x == v] for a string [x] and a value [v]. *)
Definition str_eq (x : string) (v : pyobj) : bool :=
  match v with
  | PyStr s => String.eqb x s
  | _ => false
  end.

(** The first position of an item equal to [x]: [l.index(x)]. *)
Fixpoint list_index (x : string) (l : list pyobj) : option nat :=
  match l with
  | [] => None
  | v :: rest => if str_eq x v then Some 0 else option_map S (list_index x rest)
  end.

(** [x in v] for a string [x]: an item of a list, a part of a string, a key
    of a dict; anything else is not iterable. *)
Definition py_contains (v : pyobj) (x : string) : exn + bool :=
  match v with
  | PyList l => inr (match list_index x l with Some _ => true | None => false end)
  | PyStr s => inr (match find x s with Some _ => true | None => false end)
  | PyDict d => inr (match dict_get d x with Some _ => true | None => false end)
  | _ => inl TypeError
  end.

(** [v.index(x)] once [x in v] held. *)
Definition py_index (v : pyobj) (x : string) : login_exn + nat :=
  match v with
  | PyList l => match list_index x l with
                | Some i => inr i
                | None => inl (Builtin OtherError)
                end
  | PyStr s => match find x s with
               | Some i => inr i
               | None => inl (Builtin OtherError)
               end
  | _ => inl AttributeError
  end.

(** Lines 40-44 of [check_login], with the two tables in hand. *)
Definition verify_login (host : Host) (usernames passwords : pyobj)
    (username password : string) : login_exn + bool :=
  let hashed_input := sha256_hexdigest host password in
  match py_contains usernames username with
  | inl e => inl (Builtin e)
  | inr false => inr false
  | inr true =>
      match py_index usernames username with
      | inl e => inl e
      | inr index =>
          match getitem_index passwords index with
          | inl e => inl (Builtin e)
          | inr stored => inr (str_eq hashed_input stored)
          end
      end
  end.

(** [check_login(username, password)]: the tables of [st.secrets], or else
    those of the environment, decoded with [json.loads]. An unset variable
    is the [TypeError] of [json.loads(None)]. *)
Definition check_login (host : Host) (env : Env) (username password : string)
  : (login_exn + bool) * list sidebar_event :=
  match secrets_usernames host, secrets_passwords host with
  | Some usernames, Some passwords =>
      (verify_login host usernames passwords username password, [])
  | _, _ =>
      match getenv host "APP_USERNAMES" with
      | None => (inr false, [print_fallback_info; st_error_local_credentials])
      | Some raw_usernames =>
          match json_loads env raw_usernames with
          | None => (inr false, [print_fallback_info; st_error_local_credentials])
          | Some usernames =>
              match getenv host "APP_PASSWORDS" with
              | None => (inr false, [print_fallback_info; st_error_local_credentials])
              | Some raw_passwords =>
                  match json_loads env raw_passwords with
                  | None =>
                      (inr false, [print_fallback_info; st_error_local_credentials])
                  | Some passwords =>
                      (verify_login host usernames passwords username password,
                       [print_fallback_info])
                  end
              end
          end
      end
  end.

(** [load_api_keys()]: both keys from [st.secrets]; when either read
    raises, both from [os.getenv]. *)
Definition load_api_keys (host : Host) : option string * option string :=
  match secret host "GOOGLE_API_KEY", secret host "STABILITY_API_KEY" with
  | Some google_api_key, Some stability_api_key =>
      (Some google_api_key, Some stability_api_key)
  | _, _ => (getenv host "GOOGLE_API_KEY", getenv host "STABILITY_API_KEY")
  end.

(** The three login keys of [st.session_state]; [user] is absent until a
    login succeeds. Lines 48-51 give the first two their [False]. *)
Record AuthState : Type := {
  authenticated : bool;
  rerun_trigger : bool;
  user : option string
}.

Definition new_auth : AuthState :=
  {| authenticated := false; rerun_trigger := false; user := None |}.

(** How the part of a run before the story pages ends. *)
Inductive gate_outcome : Type :=
| Continue
| Stopped
| GateReruns
| GateRaises (e : login_exn).

(** Lines 54-75: the login form, [st.stop()] for a session that is not
    authenticated, the rerun after a login, and the welcome line.
    [login_click] holds what was typed when the Login button was pressed. *)
Definition login_gate (host : Host) (env : Env)
    (login_click : option (string * string)) (a : AuthState)
  : gate_outcome * AuthState * list sidebar_event :=
  let welcome (a' : AuthState) (ev : list sidebar_event) :=
    if rerun_trigger a'
    then (GateReruns,
          {| authenticated := authenticated a'; rerun_trigger := false;
             user := user a' |}, ev)
    else match user a' with
         | Some name => (Continue, a', (ev ++ [sidebar_success_welcome name])%list)
         | None => (GateRaises AttributeError, a', ev)
         end in
  if authenticated a then welcome a []
  else
    match login_click with
    | None => (Stopped, a, [])
    | Some (username, password) =>
        match check_login host env username password with
        | (inl e, ev) => (GateRaises e, a, ev)
        | (inr true, ev) =>
            welcome {| authenticated := true; rerun_trigger := true;
                       user := Some username |} ev
        | (inr false, ev) =>
            (Stopped, a, (ev ++ [sidebar_error_invalid_credentials])%list)
        end
    end.

(** The environment with the Stability key that [load_api_keys] found. *)
Definition with_stability_key (k : option string) (env : Env) : Env :=
  {| generate_content := generate_content env;
     json_loads := json_loads env;
     py_str := py_str env;
     STABILITY_API_KEY := k;
     requests_post := requests_post env;
     open_image := open_image env |}.

(** The whole session: login keys and story keys. *)
Record AppState : Type := { auth : AuthState; story : Session }.

Definition new_app : AppState := {| auth := new_auth; story := None |}.

(** What the user did to trigger a run of the whole script. *)
Inductive app_action : Type :=
| idle
| press_login (username password : string)
| on_page (a : action).

Definition login_click_of (act : app_action) : option (string * string) :=
  match act with
  | press_login username password => Some (username, password)
  | _ => None
  end.

Definition page_action_of (act : app_action) : action :=
  match act with
  | on_page a => a
  | _ => no_action
  end.

(** How a run of the whole script ends. *)
Inductive app_outcome : Type :=
| AppDone
| AppStopped
| AppReruns
| AppRaises (e : login_exn).

(** One run of the whole script: the login gate (lines 48-75), the keys
    (lines 79-96), then the story pages (lines 216-292). *)
Definition app_run (host : Host) (env : Env) (act : app_action) (st : AppState)
  : app_outcome * AppState * list sidebar_event * list event :=
  match login_gate host env (login_click_of act) (auth st) with
  | (Continue, a, sev) =>
      match load_api_keys host with
      | (google_api_key, stability_api_key) =>
          if key_missing google_api_key
          then (AppStopped, {| auth := a; story := story st |},
                (sev ++ [st_error_google_key_not_found])%list, [])
          else
            match script (with_stability_key stability_api_key env)
                    (page_action_of act) (story st) with
            | (Returns _, ss, ev) => (AppDone, {| auth := a; story := ss |}, sev, ev)
            | (Raises e, ss, ev) =>
                (AppRaises (Builtin e), {| auth := a; story := ss |}, sev, ev)
            | (Reruns, ss, ev) => (AppReruns, {| auth := a; story := ss |}, sev, ev)
            end
      end
  | (Stopped, a, sev) => (AppStopped, {| auth := a; story := story st |}, sev, [])
  | (GateReruns, a, sev) => (AppReruns, {| auth := a; story := story st |}, sev, [])
  | (GateRaises e, a, sev) => (AppRaises e, {| auth := a; story := story st |}, sev, [])
  end.

(** A user action and the rerun it may ask for. *)
Definition app_interact (host : Host) (env : Env) (act : app_action) (st : AppState)
  : AppState * list sidebar_event * list event :=
  match app_run host env act st with
  | (AppReruns, st1, sev1, ev1) =>
      match app_run host env idle st1 with
      | (_, st2, sev2, ev2) => (st2, (sev1 ++ sev2)%list, (ev1 ++ ev2)%list)
      end
  | (_, st1, sev1, ev1) => (st1, sev1, ev1)
  end.

(** The sessions of the whole script a user can bring about. *)
Inductive app_reachable : AppState -> Prop :=
| app_reach_new : app_reachable new_app
| app_reach_step : forall host env act st,
    app_reachable st ->
    app_reachable (fst (fst (app_interact host env act st))).

(** [l] starts with [prefix_part]. *)
Definition starts_with {A : Type} (prefix_part l : list A) : Prop :=
  exists rest, l = (prefix_part ++ rest)%list.

(** What a page keeps of the chapters it found: their texts, in order, at
    the head of the list; and every chapter but the first as it was. *)
Definition keeps_chapters (old new : list Chapter) : Prop :=
  starts_with (map text old) (map text new) /\ starts_with (tl old) (tl new).

(** The action presses a button of the page of this stage whose handler
    runs: Set the Stage; Start the Saga with a sentence; Weave Next Chapter
    while there are choices. *)
Definition handled (s : StoryState) (a : action) : bool :=
  match app_stage s, a with
  | world_forge, click_set_the_stage _ _ _ => true
  | story_start, click_start_the_saga initial_prompt =>
      negb (String.eqb initial_prompt "")
  | story_cycle, click_weave_next_chapter _ => truthy (latest_choices s)
  | _, _ => false
  end.

(** A call to one of the two remote services. *)
Definition is_service_call (ev : event) : bool :=
  match ev with
  | call_generate_content _ _ | call_requests_post _ => true
  | _ => false
  end.

(** The text sent to the Stability endpoint for an image prompt. *)
Definition stability_text (env : Env) (prompt : pyobj) : string :=
  "cinematic, epic, high detail, masterpiece, " ++ fmt env prompt.

(** The world bible is there exactly outside [world_forge]. *)
Definition bible_invariant (s : StoryState) : Prop :=
  match app_stage s with
  | world_forge => world_bible s = None
  | _ => exists bible, world_bible s = Some bible
  end.

(** The stage a page may move to from another. *)
Definition stage_le (a b : Stage) : bool :=
  match a, b with
  | world_forge, _ => true
  | story_start, world_forge => false
  | story_start, _ => true
  | story_cycle, story_cycle => true
  | story_cycle, _ => false
  end.

(** Concrete hosts for the examples. The digest is a stand-in that keeps
    distinct passwords apart. *)
Module DemoLogin.

Definition digest (password : string) : string := "sha256:" ++ password.

(** Two users in [st.secrets]; both API keys in [st.secrets]. *)
Definition host : Host :=
  {| secrets_usernames := Some (PyList [PyStr "ada"; PyStr "bob"]);
     secrets_passwords := Some (PyList [PyStr "sha256:lovelace"; PyStr "sha256:builder"]);
     secret := fun name =>
       if String.eqb name "GOOGLE_API_KEY" then Some "g-key"
       else if String.eqb name "STABILITY_API_KEY" then Some "s-key"
       else None;
     environ := fun _ => None;
     sha256_hexdigest := digest |}.

(** [ada] is listed twice, and the second entry has another password. *)
Definition host_twice : Host :=
  {| secrets_usernames := Some (PyList [PyStr "ada"; PyStr "bob"; PyStr "ada"]);
     secrets_passwords :=
       Some (PyList [PyStr "sha256:lovelace"; PyStr "sha256:builder";
                     PyStr "sha256:byron"]);
     secret := fun _ => None;
     environ := fun _ => None;
     sha256_hexdigest := digest |}.

(** The passwords table is one entry short. *)
Definition host_short : Host :=
  {| secrets_usernames := Some (PyList [PyStr "ada"; PyStr "bob"]);
     secrets_passwords := Some (PyList [PyStr "sha256:lovelace"]);
     secret := fun _ => None;
     environ := fun _ => None;
     sha256_hexdigest := digest |}.

(** No secrets file and an empty environment. *)
Definition host_bare : Host :=
  {| secrets_usernames := None;
     secrets_passwords := None;
     secret := fun _ => None;
     environ := fun _ => None;
     sha256_hexdigest := digest |}.

(** The Google key is a secret, the Stability key is not, and the process
    environment holds neither. *)
Definition host_half : Host :=
  {| secrets_usernames := Some (PyList [PyStr "ada"]);
     secrets_passwords := Some (PyList [PyStr "sha256:lovelace"]);
     secret := fun name =>
       if String.eqb name "GOOGLE_API_KEY" then Some "g-key" else None;
     environ := fun _ => None;
     sha256_hexdigest := digest |}.

Definition logged_in : AuthState :=
  {| authenticated := true; rerun_trigger := false; user := Some "ada" |}.

(** A story whose second chapter text came back as a number. *)
Definition broken : StoryState :=
  {| app_stage := story_cycle;
     world_bible := Some "A city of bored wizards.";
     story_chapters := [ {| text := PyStr Demo.opening; image := None |};
                         {| text := PyInt 7; image := None |} ];
     latest_choices := PyList [PyStr "Wait"] |}.

(** A Stability key is configured and the endpoint answers 401. *)
Definition env_rejected : Env :=
  {| generate_content := generate_content Demo.env_ok;
     json_loads := Demo.loads;
     py_str := fun _ => "?";
     STABILITY_API_KEY := Some "s-key";
     requests_post := fun _ => PostResponse 401 "unauthorized";
     open_image := fun _ => None |}.

(** A reply that lacks [next_choices]. *)
Definition reply_without_choices : pyobj :=
  PyDict [("narrative_chapter", PyStr "The clock stopped.");
          ("image_prompt", PyStr "starship, clock")].

Definition reply_without_choices_json : string :=
  "{" ++ dq ++ "narrative_chapter" ++ dq ++ ": " ++ dq ++ "The clock stopped." ++ dq
  ++ ", " ++ dq ++ "image_prompt" ++ dq ++ ": " ++ dq ++ "starship, clock" ++ dq ++ "}".

(** The text model sends that reply; the decoder agrees with [json.loads]
    on it. *)
Definition env_without_choices : Env :=
  {| generate_content := fun _ _ => LlmResponse reply_without_choices_json;
     json_loads := fun s =>
       if String.eqb s reply_without_choices_json
       then Some reply_without_choices else None;
     py_str := fun _ => "?";
     STABILITY_API_KEY := None;
     requests_post := fun _ => PostRaises OtherError;
     open_image := fun _ => None |}.

End DemoLogin.

(* ================================================================== *)
(** ** Sanity runs *)
(* ================================================================== *)

Example demo_start_ok :
  final (story_start_submit Demo.env_ok Demo.opening) Demo.forged = Demo.begun.
Proof. vm_compute. reflexivity. Qed.

Example demo_cycle_ok :
  List.length (story_chapters
    (final (story_cycle_submit Demo.env_ok (PyStr "Wait")) Demo.begun)) = 3.
Proof. vm_compute. reflexivity. Qed.

(* ================================================================== *)
(** ** Failure and success of a submission *)
(* ================================================================== *)

Lemma story_cycle_failure_is_identity env s choice_made story_so_far :
  join_values " " (map text (story_chapters s)) = inr story_so_far ->
  narrative_failed
    (fst (generate_story_chapter env story_so_far (world_bible s) choice_made)) ->
  final (story_cycle_submit env choice_made) s = s.
Proof.
  intros Hjoin Hfail. run_handler. rewrite Hjoin.
  destruct (generate_story_chapter env story_so_far (world_bible s) choice_made)
    as [[v | e | ] ev]; simpl in *; try reflexivity.
  rewrite Hfail. reflexivity.
Qed.

Lemma story_start_failure_keeps_opening env s initial_prompt :
  narrative_failed
    (fst (generate_story_chapter env "" (world_bible s) (PyStr initial_prompt))) ->
  final (story_start_submit env initial_prompt) s
  = append_chapter {| text := PyStr initial_prompt; image := None |} s.
Proof.
  intros Hfail. run_handler. simpl.
  destruct (generate_story_chapter env "" (world_bible s) (PyStr initial_prompt))
    as [[v | e | ] ev]; simpl in *; try reflexivity.
  rewrite Hfail. reflexivity.
Qed.

(** C1, as the code has it. When the narrative call fails (it raises, or
    what it returns is falsy), a [story_cycle] submission leaves the whole
    state as it was, and a [story_start] submission leaves exactly one
    change behind: the chapter of the user's opening sentence, appended
    before the call, with no image. No generated chapter is appended and
    [latest_choices], [app_stage] and [world_bible] keep their values. *)
Theorem narrative_failure_effects (env : Env) (s : StoryState) :
  (forall choice_made story_so_far,
      join_values " " (map text (story_chapters s)) = inr story_so_far ->
      narrative_failed
        (fst (generate_story_chapter env story_so_far (world_bible s) choice_made)) ->
      final (story_cycle_submit env choice_made) s = s)
  /\
  (forall initial_prompt,
      narrative_failed
        (fst (generate_story_chapter env "" (world_bible s) (PyStr initial_prompt))) ->
      let s' := final (story_start_submit env initial_prompt) s in
      story_chapters s'
      = (story_chapters s ++ [ {| text := PyStr initial_prompt; image := None |} ])%list
      /\ latest_choices s' = latest_choices s
      /\ app_stage s' = app_stage s
      /\ world_bible s' = world_bible s).
Proof.
  split.
  - intros c ctx Hjoin Hfail.
    exact (story_cycle_failure_is_identity env s c ctx Hjoin Hfail).
  - intros p Hfail s'. subst s'.
    rewrite (story_start_failure_keeps_opening env s p Hfail).
    repeat split.
Qed.

(** The theorem at work: a garbled reply in both stages. *)
Lemma narrative_failure_effects_witness :
  final (story_cycle_submit Demo.env_garbled (PyStr "Wait")) Demo.begun = Demo.begun
  /\ story_chapters (final (story_start_submit Demo.env_garbled Demo.opening) Demo.forged)
     = [ {| text := PyStr Demo.opening; image := None |} ].
Proof.
  destruct (narrative_failure_effects Demo.env_garbled Demo.begun) as [Hcycle _].
  destruct (narrative_failure_effects Demo.env_garbled Demo.forged) as [_ Hstart].
  split.
  - apply (Hcycle (PyStr "Wait")
             (Demo.opening ++ " " ++ "The clock stopped.")).
    + reflexivity.
    + vm_compute. reflexivity.
  - apply (Hstart Demo.opening). vm_compute. reflexivity.
Defined.

(** C1 as the spec words it fails in [story_start]: the narrative call
    returns [None] on a garbled reply, and the submission has nevertheless
    appended a chapter. *)
Lemma story_start_failure_appends_a_chapter :
  fst (generate_story_chapter Demo.env_garbled "" (world_bible Demo.forged)
         (PyStr Demo.opening)) = Returns PyNone
  /\ story_chapters Demo.forged = []
  /\ story_chapters (final (story_start_submit Demo.env_garbled Demo.opening) Demo.forged)
     = [ {| text := PyStr Demo.opening; image := None |} ].
Proof. vm_compute. repeat split. Qed.

(** The two service helpers never ask for a rerun, and the illustration
    helper always returns. *)
Lemma generate_image_stability_returns env prompt :
  exists new_image, fst (generate_image_stability env prompt) = Returns new_image.
Proof.
  unfold generate_image_stability.
  destruct (key_missing (STABILITY_API_KEY env)); [eexists; reflexivity |].
  destruct (requests_post env _) as [e | code body]; [eexists; reflexivity |].
  destruct (raise_for_status code).
  - destruct (json_loads env body); eexists; reflexivity.
  - destruct (json_loads env body) as [data |]; [| eexists; reflexivity].
    destruct (artifact_base64 data) as [[] | []]; try (eexists; reflexivity).
    destruct (open_image env s); eexists; reflexivity.
Qed.

Lemma generate_story_chapter_no_rerun env story_context bible choice :
  fst (generate_story_chapter env story_context bible choice) <> Reruns.
Proof.
  unfold generate_story_chapter.
  destruct (generate_content env _ _); [discriminate |].
  destruct (json_loads env _); discriminate.
Qed.

(** When a submission runs to its [st.rerun()]. *)
Lemma story_cycle_reruns_inv env s choice_made :
  result (story_cycle_submit env choice_made) s = Reruns ->
  exists story_so_far ai_response image_prompt new_image narrative_chapter
         next_choices,
    join_values " " (map text (story_chapters s)) = inr story_so_far
    /\ fst (generate_story_chapter env story_so_far (world_bible s) choice_made)
       = Returns ai_response
    /\ truthy ai_response = true
    /\ getitem_key ai_response "image_prompt" = inr image_prompt
    /\ fst (generate_image_stability env image_prompt) = Returns new_image
    /\ getitem_key ai_response "narrative_chapter" = inr narrative_chapter
    /\ getitem_key ai_response "next_choices" = inr next_choices
    /\ final (story_cycle_submit env choice_made) s
       = set_latest_choices next_choices
           (append_chapter {| text := narrative_chapter; image := new_image |} s).
Proof.
  run_handler.
  destruct (join_values " " (map text (story_chapters s))) as [e | ctx];
    simpl; [discriminate |].
  pose proof (generate_story_chapter_no_rerun env ctx (world_bible s) choice_made)
    as Hnr.
  destruct (generate_story_chapter env ctx (world_bible s) choice_made)
    as [[v | e | ] ev] eqn:Hgen; simpl in *; try discriminate; [| congruence].
  destruct (truthy v) eqn:Htruthy; simpl; [| discriminate].
  destruct (getitem_key v "image_prompt") as [e | ip] eqn:Hip; simpl;
    [discriminate |].
  destruct (generate_image_stability_returns env ip) as [img Himg].
  destruct (generate_image_stability env ip) as [r ev2] eqn:Hgi; simpl in *; subst r.
  destruct (getitem_key v "narrative_chapter") as [e | nc] eqn:Hnc; simpl;
    [discriminate |].
  destruct (getitem_key v "next_choices") as [e | ch] eqn:Hch; simpl;
    [discriminate |].
  intros _. exists ctx, v, ip, img, nc, ch.
  repeat split; auto; [rewrite Hgen | rewrite Hgi]; reflexivity.
Qed.

Lemma set_image_at_length i img l l' :
  set_image_at i img l = Some l' -> List.length l' = List.length l.
Proof.
  revert i l'. induction l as [| ch rest IH]; intros [| j] l' H;
    unfold set_image_at in H; fold set_image_at in H; try discriminate.
  - injection H as <-. reflexivity.
  - destruct (set_image_at j img rest) as [rest' |] eqn:Hrest; [| discriminate].
    injection H as <-. simpl. f_equal. eauto.
Qed.

Lemma story_start_reruns_inv env s initial_prompt :
  result (story_start_submit env initial_prompt) s = Reruns ->
  exists ai_response image_prompt new_image narrative_chapter next_choices l,
    fst (generate_story_chapter env "" (world_bible s) (PyStr initial_prompt))
    = Returns ai_response
    /\ truthy ai_response = true
    /\ getitem_key ai_response "image_prompt" = inr image_prompt
    /\ fst (generate_image_stability env image_prompt) = Returns new_image
    /\ getitem_key ai_response "narrative_chapter" = inr narrative_chapter
    /\ getitem_key ai_response "next_choices" = inr next_choices
    /\ set_image_at 0 new_image
         (story_chapters s ++ [ {| text := PyStr initial_prompt; image := None |} ])%list
       = Some l
    /\ final (story_start_submit env initial_prompt) s
       = {| app_stage := story_cycle;
            world_bible := world_bible s;
            story_chapters :=
              (l ++ [ {| text := narrative_chapter; image := None |} ])%list;
            latest_choices := next_choices |}.
Proof.
  run_handler. simpl.
  pose proof (generate_story_chapter_no_rerun env "" (world_bible s)
                (PyStr initial_prompt)) as Hnr.
  destruct (generate_story_chapter env "" (world_bible s) (PyStr initial_prompt))
    as [[v | e | ] ev]; simpl in *; try discriminate; [| congruence].
  destruct (truthy v) eqn:Htruthy; simpl; [| discriminate].
  destruct (getitem_key v "image_prompt") as [e | ip] eqn:Hip; simpl;
    [discriminate |].
  destruct (generate_image_stability_returns env ip) as [img Himg].
  destruct (generate_image_stability env ip) as [r ev2] eqn:Hgi; simpl in *; subst r.
  destruct (set_image_at 0 img _) as [l |] eqn:Hset; simpl; [| discriminate].
  destruct (getitem_key v "narrative_chapter") as [e | nc] eqn:Hnc; simpl;
    [discriminate |].
  destruct (getitem_key v "next_choices") as [e | ch] eqn:Hch; simpl;
    [discriminate |].
  intros _. exists v, ip, img, nc, ch, l. repeat split; auto.
  rewrite Hgi. reflexivity.
Qed.

Lemma set_image_at_texts i img l l' :
  set_image_at i img l = Some l' -> map text l' = map text l.
Proof.
  revert i l'. induction l as [| ch rest IH]; intros [| j] l' H;
    unfold set_image_at in H; fold set_image_at in H; try discriminate.
  - injection H as <-. reflexivity.
  - destruct (set_image_at j img rest) as [rest' |] eqn:Hrest; [| discriminate].
    injection H as <-. simpl. f_equal. eauto.
Qed.

(** C2. A submission that runs to its [st.rerun()] makes [story_chapters]
    longer by exactly one in [story_cycle]: the generated chapter is put at
    the end. In [story_start] it makes it longer by exactly two: the
    chapter of the opening sentence, then the generated continuation. *)
Theorem successful_submission_grows_chapters (env : Env) (s : StoryState) :
  (forall choice_made,
      result (story_cycle_submit env choice_made) s = Reruns ->
      let s' := final (story_cycle_submit env choice_made) s in
      List.length (story_chapters s') = List.length (story_chapters s) + 1
      /\ exists generated,
           story_chapters s' = (story_chapters s ++ [generated])%list)
  /\
  (forall initial_prompt,
      result (story_start_submit env initial_prompt) s = Reruns ->
      let s' := final (story_start_submit env initial_prompt) s in
      List.length (story_chapters s') = List.length (story_chapters s) + 2
      /\ exists narrative_chapter,
           map text (story_chapters s')
           = (map text (story_chapters s)
              ++ [PyStr initial_prompt; narrative_chapter])%list).
Proof.
  split.
  - intros c Hok s'. subst s'.
    destruct (story_cycle_reruns_inv env s c Hok)
      as (ctx & v & ip & img & nc & ch & _ & _ & _ & _ & _ & _ & _ & ->).
    simpl. rewrite length_app. split; [reflexivity | eauto].
  - intros p Hok s'. subst s'.
    destruct (story_start_reruns_inv env s p Hok)
      as (v & ip & img & nc & ch & l & _ & _ & _ & _ & _ & _ & Hset & ->).
    simpl. split.
    + rewrite length_app, (set_image_at_length _ _ _ _ Hset), length_app.
      simpl. lia.
    + exists nc.
      rewrite map_app, (set_image_at_texts _ _ _ _ Hset), map_app, <- app_assoc.
      reflexivity.
Qed.

(** The theorem at work on the sample story: two chapters after the
    opening, three after the next choice. *)
Lemma successful_submission_grows_chapters_witness :
  List.length (story_chapters
    (final (story_cycle_submit Demo.env_ok (PyStr "Wait")) Demo.begun)) = 2 + 1
  /\ List.length (story_chapters
    (final (story_start_submit Demo.env_ok Demo.opening) Demo.forged)) = 0 + 2.
Proof.
  split.
  - apply (proj1 (successful_submission_grows_chapters Demo.env_ok Demo.begun)
             (PyStr "Wait")).
    vm_compute. reflexivity.
  - apply (proj2 (successful_submission_grows_chapters Demo.env_ok Demo.forged)
             Demo.opening).
    vm_compute. reflexivity.
Defined.

(* ================================================================== *)
(** ** The narrative helper *)
(* ================================================================== *)

(** C4. When [generate_content] itself raises, the [except] clause reads
    the unassigned local [response] and [UnboundLocalError] leaves the
    function after [st.error]; nothing is returned. The clause runs to its
    [return None] exactly when a response came back and decoding its
    cleaned text failed. *)
Theorem generate_story_chapter_unbound_response
    (env : Env) (story_context : string) (bible : option string) (choice : pyobj) :
  let prompt := chapter_prompt env story_context bible choice in
  let out := generate_story_chapter env story_context bible choice in
  (forall e,
      generate_content env prompt (Some chapter_config) = LlmRaises e ->
      out = (Raises (UnboundLocalError "response"),
             [call_generate_content prompt (Some chapter_config);
              st_error (ErrProcessingAIResponse e)]))
  /\
  (recovered_with_none out <->
   exists response_text,
     generate_content env prompt (Some chapter_config) = LlmResponse response_text
     /\ json_loads env (clean_json_string response_text) = None).
Proof.
  intros prompt out. subst out. unfold generate_story_chapter. fold prompt.
  split.
  - intros e He. rewrite He. reflexivity.
  - unfold recovered_with_none.
    destruct (generate_content env prompt (Some chapter_config))
      as [e | response_text].
    + split.
      * intros [Hret _]. discriminate.
      * intros (t & Ht & _). discriminate.
    + destruct (json_loads env (clean_json_string response_text)) as [data |] eqn:Hj.
      * split.
        -- intros [_ (body & [H | []])]. discriminate.
        -- intros (t & Ht & Hnone). injection Ht as <-. congruence.
      * split.
        -- intros _. exists response_text. split; [reflexivity | assumption].
        -- intros _. split; [reflexivity |].
           exists response_text. simpl. auto.
Qed.

(** With the text model down, the opening submission ends in
    [UnboundLocalError]. *)
Example demo_model_down :
  result (story_start_submit Demo.env_down Demo.opening) Demo.forged
  = Raises (UnboundLocalError "response").
Proof. vm_compute. reflexivity. Qed.

(* ================================================================== *)
(** ** Facts about the string methods *)
(* ================================================================== *)

Section StringFacts.

Lemma append_empty_r (x : string) : x ++ "" = x.
Proof. induction x as [| c x IH]; simpl; [reflexivity | now rewrite IH]. Qed.

Lemma append_assoc (x y z : string) : (x ++ y) ++ z = x ++ (y ++ z).
Proof. induction x as [| c x IH]; simpl; [reflexivity | now rewrite IH]. Qed.

Lemma append_not_empty_r (x y : string) : y <> "" -> x ++ y <> "".
Proof. destruct x; simpl; [auto | discriminate]. Qed.

Lemma lstrip_spaces_app (ws x : string) :
  all_chars is_space ws = true -> lstrip (ws ++ x) = lstrip x.
Proof.
  induction ws as [| c ws IH]; simpl; [reflexivity |].
  intros H. apply andb_prop in H as [Hc Hws]. rewrite Hc. auto.
Qed.

Lemma lstrip_nonspace (c : ascii) (x : string) :
  is_space c = false -> lstrip (String c x) = String c x.
Proof. intros H. simpl. now rewrite H. Qed.

Lemma rstrip_spaces (ws : string) :
  all_chars is_space ws = true -> rstrip ws = "".
Proof.
  induction ws as [| c ws IH]; simpl; [reflexivity |].
  intros H. apply andb_prop in H as [Hc Hws]. rewrite (IH Hws), Hc. reflexivity.
Qed.

Lemma rstrip_app_spaces (x ws : string) :
  all_chars is_space ws = true -> rstrip (x ++ ws) = rstrip x.
Proof.
  intros H. induction x as [| c x IH]; simpl.
  - now apply rstrip_spaces.
  - now rewrite IH.
Qed.

Lemma rstrip_app_kept (x y : string) :
  rstrip y <> "" -> rstrip (x ++ y) = x ++ rstrip y.
Proof.
  intros Hy. induction x as [| c x IH]; simpl; [reflexivity |].
  rewrite IH. pose proof (append_not_empty_r x _ Hy) as Hne.
  destruct (x ++ rstrip y); [contradiction | reflexivity].
Qed.

Lemma prefix_nil (x : string) : prefix "" x = true.
Proof. destruct x; reflexivity. Qed.

Lemma prefix_cons (a b : ascii) (x y : string) :
  prefix (String a x) (String b y) = if Ascii.eqb a b then prefix x y else false.
Proof.
  simpl. destruct (ascii_dec a b) as [-> | Hne].
  - now rewrite Ascii.eqb_refl.
  - apply Ascii.eqb_neq in Hne. now rewrite Hne.
Qed.

Lemma prefix_backtick (old x : string) (c : ascii) :
  not_backtick c = true -> prefix (String "`" old) (String c x) = false.
Proof.
  unfold not_backtick. intros H. rewrite prefix_cons, Ascii.eqb_sym.
  now destruct (Ascii.eqb c "`").
Qed.

(** Scanning a text without backticks for either fence changes nothing
    up to the closing fence. *)
Lemma replace_json_fence_body (body : string) :
  all_chars not_backtick body = true ->
  replace_scan "```json" "" 0 (body ++ "```") = body ++ "```".
Proof.
  induction body as [| c body IH]; [reflexivity |].
  intros H. apply andb_prop in H as [Hc Hbody].
  change (String c body ++ "```") with (String c (body ++ "```")).
  unfold replace_scan; fold replace_scan.
  rewrite (prefix_backtick _ _ _ Hc). now rewrite IH.
Qed.

Lemma replace_fence_body (body : string) :
  all_chars not_backtick body = true ->
  replace_scan "```" "" 0 (body ++ "```") = body.
Proof.
  induction body as [| c body IH]; [reflexivity |].
  intros H. apply andb_prop in H as [Hc Hbody].
  change (String c body ++ "```") with (String c (body ++ "```")).
  unfold replace_scan; fold replace_scan.
  rewrite (prefix_backtick _ _ _ Hc). now rewrite IH.
Qed.

(** A body that does not start with [json] still does not once the
    closing fence follows it. *)
Lemma prefix_json_body_fence (body : string) :
  prefix "json" body = false ->
  prefix "json" (body ++ "```") = false.
Proof.
  intros Hp.
  destruct body as [| a1 [| a2 [| a3 [| a4 rest]]]]; cbn [append] in *;
    rewrite ?prefix_cons in *;
    repeat match goal with
      | H : context [Ascii.eqb ?a ?b] |- _ =>
          destruct (Ascii.eqb_spec a b); subst
      | |- context [Ascii.eqb ?a ?b] =>
          destruct (Ascii.eqb_spec a b); subst
      end;
    rewrite ?prefix_nil in *; try reflexivity; try discriminate.
Qed.

(** What [strip] makes of a fenced block with blanks around it. *)
Lemma strip_fenced (lead trail opener inner : string) (c : ascii) :
  all_chars is_space lead = true ->
  all_chars is_space trail = true ->
  is_space c = false ->
  strip (lead ++ String c opener ++ inner ++ "```" ++ trail)
  = String c opener ++ inner ++ "```".
Proof.
  intros Hlead Htrail Hc. unfold strip.
  rewrite (lstrip_spaces_app _ _ Hlead).
  change (String c opener ++ inner ++ "```" ++ trail)
    with (String c (opener ++ inner ++ "```" ++ trail)).
  rewrite (lstrip_nonspace _ _ Hc).
  change (String c (opener ++ inner ++ "```" ++ trail))
    with (String c opener ++ inner ++ "```" ++ trail).
  rewrite <- (append_assoc (String c opener) inner ("```" ++ trail)).
  assert (Hend : rstrip ("```" ++ trail) = "```")
    by (rewrite (rstrip_app_spaces _ _ Htrail); reflexivity).
  rewrite rstrip_app_kept; rewrite Hend; [| discriminate].
  now rewrite append_assoc.
Qed.

Lemma prefix_app (old rest : string) : prefix old (old ++ rest) = true.
Proof.
  induction old as [| c old IH]; simpl append.
  - apply prefix_nil.
  - now rewrite prefix_cons, Ascii.eqb_refl.
Qed.

Lemma replace_scan_skip (old new x y : string) :
  replace_scan old new (String.length x) (x ++ y) = replace_scan old new 0 y.
Proof.
  induction x as [| c x IH]; simpl.
  - destruct y; reflexivity.
  - exact IH.
Qed.

(** A match at the head of the text is replaced and the scan resumes
    right after it. *)
Lemma replace_scan_hit (c : ascii) (old new rest : string) :
  replace_scan (String c old) new 0 (String c old ++ rest)
  = new ++ replace_scan (String c old) new 0 rest.
Proof.
  change (String c old ++ rest) with (String c (old ++ rest)).
  unfold replace_scan at 1; fold replace_scan.
  change (String c (old ++ rest)) with (String c old ++ rest).
  rewrite prefix_app.
  change (String.length (String c old) - 1) with (String.length old - 0).
  now rewrite Nat.sub_0_r, replace_scan_skip.
Qed.

Lemma replace_scan_miss (c : ascii) (old new x : string) :
  prefix old (String c x) = false ->
  replace_scan old new 0 (String c x) = String c (replace_scan old new 0 x).
Proof. intros H. unfold replace_scan at 1; fold replace_scan. now rewrite H. Qed.

(** An opening fence without [json] is left alone by the first
    replacement. *)
Lemma replace_json_plain_fence (body : string) :
  all_chars not_backtick body = true ->
  prefix "json" body = false ->
  replace_scan "```json" "" 0 ("```" ++ body ++ "```") = "```" ++ body ++ "```".
Proof.
  intros Hbt Hp.
  pose proof (prefix_json_body_fence body Hp) as Hpf.
  assert (H1 : prefix "`json" (body ++ "```") = false).
  { destruct body as [| c body]; [reflexivity |].
    simpl in Hbt. apply andb_prop in Hbt as [Hc _].
    exact (prefix_backtick _ _ _ Hc). }
  assert (H2 : prefix "``json" (body ++ "```") = false).
  { destruct body as [| c body]; [reflexivity |].
    simpl in Hbt. apply andb_prop in Hbt as [Hc _].
    exact (prefix_backtick _ _ _ Hc). }
  change ("```" ++ body ++ "```")
    with (String "`" (String "`" (String "`" (body ++ "```")))).
  rewrite replace_scan_miss
    by (now rewrite !prefix_cons, !Ascii.eqb_refl).
  rewrite replace_scan_miss
    by (now rewrite !prefix_cons, !Ascii.eqb_refl).
  rewrite replace_scan_miss
    by (now rewrite !prefix_cons, !Ascii.eqb_refl).
  now rewrite replace_json_fence_body.
Qed.

(** The cleaning of a reply fenced with [```json]. *)
Lemma clean_json_fence (lead trail body : string) :
  all_chars is_space lead = true ->
  all_chars is_space trail = true ->
  all_chars not_backtick body = true ->
  clean_json_string (lead ++ "```json" ++ body ++ "```" ++ trail) = strip body.
Proof.
  intros Hlead Htrail Hbody. unfold clean_json_string.
  change ("```json" ++ body ++ "```" ++ trail)
    with (String "`" "``json" ++ body ++ "```" ++ trail).
  rewrite (strip_fenced lead trail "``json" body "`" Hlead Htrail eq_refl).
  unfold replace.
  rewrite replace_scan_hit. simpl append at 1.
  rewrite (replace_json_fence_body _ Hbody).
  now rewrite (replace_fence_body _ Hbody).
Qed.

(** The cleaning of a reply fenced with a bare [```]. *)
Lemma clean_plain_fence (lead trail body : string) :
  all_chars is_space lead = true ->
  all_chars is_space trail = true ->
  all_chars not_backtick body = true ->
  prefix "json" body = false ->
  clean_json_string (lead ++ "```" ++ body ++ "```" ++ trail) = strip body.
Proof.
  intros Hlead Htrail Hbody Hp. unfold clean_json_string.
  change ("```" ++ body ++ "```" ++ trail)
    with (String "`" "``" ++ body ++ "```" ++ trail).
  rewrite (strip_fenced lead trail "``" body "`" Hlead Htrail eq_refl).
  unfold replace.
  change (String "`" "``" ++ body ++ "```") with ("```" ++ body ++ "```").
  rewrite (replace_json_plain_fence _ Hbody Hp).
  rewrite replace_scan_hit. simpl append at 1.
  now rewrite (replace_fence_body _ Hbody).
Qed.

End StringFacts.

(* ================================================================== *)
(** ** Defensive parsing of the reply *)
(* ================================================================== *)

(** C6. Once the text model has replied, the text handed to [json.loads]
    is the reply without its code fence: for a reply that is a [```json]
    (or bare [```]) block with blanks around it, the decoder sees the
    stripped body, and what it decodes is returned. When decoding fails,
    [None] is returned after [st.error] and [st.code(response.text)]: the
    reply is shown exactly as it came, fence and all. *)
Theorem generate_story_chapter_defensive_parse
    (env : Env) (story_context : string) (bible : option string) (choice : pyobj)
    (response_text : string) :
  let prompt := chapter_prompt env story_context bible choice in
  let out := generate_story_chapter env story_context bible choice in
  generate_content env prompt (Some chapter_config) = LlmResponse response_text ->
  (forall lead trail body,
      all_chars is_space lead = true ->
      all_chars is_space trail = true ->
      all_chars not_backtick body = true ->
      response_text = lead ++ "```json" ++ body ++ "```" ++ trail
      \/ (response_text = lead ++ "```" ++ body ++ "```" ++ trail
          /\ prefix "json" body = false) ->
      clean_json_string response_text = strip body
      /\ forall data, json_loads env (strip body) = Some data ->
                      fst out = Returns data)
  /\
  (forall data,
      json_loads env (clean_json_string response_text) = Some data ->
      out = (Returns data, [call_generate_content prompt (Some chapter_config)]))
  /\
  (json_loads env (clean_json_string response_text) = None ->
   out = (Returns PyNone,
          [call_generate_content prompt (Some chapter_config);
           st_error (ErrProcessingAIResponse JSONDecodeError);
           st_code response_text])).
Proof.
  intros prompt out Hreply. subst out. unfold generate_story_chapter.
  fold prompt. rewrite Hreply.
  split; [| split].
  - intros lead trail body Hlead Htrail Hbody Hshape.
    assert (Hclean : clean_json_string response_text = strip body).
    { destruct Hshape as [-> | [-> Hp]].
      - now apply clean_json_fence.
      - now apply clean_plain_fence. }
    split; [exact Hclean |].
    intros data Hdata. rewrite Hclean, Hdata. reflexivity.
  - intros data Hdata. rewrite Hdata. reflexivity.
  - intros Hnone. rewrite Hnone. reflexivity.
Qed.

(** The theorem at work: the fenced sample reply is decoded. *)
Lemma generate_story_chapter_defensive_parse_witness :
  fst (generate_story_chapter Demo.env_ok "" None (PyStr Demo.opening))
  = Returns Demo.reply.
Proof.
  destruct (generate_story_chapter_defensive_parse
              Demo.env_ok "" None (PyStr Demo.opening) Demo.reply_text eq_refl)
    as [Hfence _].
  apply (Hfence "" nl (nl ++ Demo.reply_json ++ nl));
    try (vm_compute; reflexivity).
  left. reflexivity.
Defined.

(** A garbled reply is shown as it came and [None] is returned. *)
Example demo_garbled_reply_is_shown :
  exists prompt,
    generate_story_chapter Demo.env_garbled "" None (PyStr Demo.opening)
    = (Returns PyNone,
       [call_generate_content prompt (Some chapter_config);
        st_error (ErrProcessingAIResponse JSONDecodeError);
        st_code Demo.garbled_text]).
Proof. eexists. vm_compute. reflexivity. Qed.

(* ================================================================== *)
(** ** Illustration failures *)
(* ================================================================== *)

(** The illustration helper returns [None] exactly in the failure cases. *)
Lemma illustration_fails_iff env prompt :
  illustration_fails env prompt
  <-> fst (generate_image_stability env prompt) = Returns None.
Proof.
  unfold generate_image_stability. split.
  - intros [Hkey | e Hkey Hpost | code body Hkey Hpost Hstatus
           | code body Hkey Hpost Hstatus Hbad]; rewrite Hkey; try reflexivity;
      rewrite Hpost; try reflexivity; rewrite Hstatus.
    + destruct (json_loads env body); reflexivity.
    + destruct (json_loads env body) as [data |] eqn:Hdata; [| reflexivity].
      destruct (artifact_base64 data) as [[] | []] eqn:Hart; try reflexivity.
      destruct (open_image env s) as [img |] eqn:Himg; [| reflexivity].
      exfalso. exact (Hbad data s img eq_refl Hart Himg).
  - destruct (key_missing (STABILITY_API_KEY env)) eqn:Hkey;
      [intros _; now apply fails_unconfigured |].
    destruct (requests_post env _) as [e | code body] eqn:Hpost;
      [intros _; now apply (fails_unreachable env prompt e) |].
    destruct (raise_for_status code) eqn:Hstatus;
      [intros _; now apply (fails_upstream_rejected env prompt code body) |].
    intros Hnone.
    apply (fails_malformed env prompt code body Hkey Hpost Hstatus).
    intros data b img Hdata Hart Himg.
    rewrite Hdata, Hart, Himg in Hnone. discriminate.
Qed.

(** C5. Let the narrative call hand back a record with an image prompt and
    a chapter text, and let the illustration call fail in any of its ways.
    Then a [story_cycle] submission still appends the chapter, with
    [image = None]; and a [story_start] submission still appends the
    generated chapter after the opening one, with [image = None]. *)
Theorem illustration_failure_still_appends
    (env : Env) (s : StoryState) (ai_response image_prompt narrative_chapter : pyobj) :
  truthy ai_response = true ->
  getitem_key ai_response "image_prompt" = inr image_prompt ->
  getitem_key ai_response "narrative_chapter" = inr narrative_chapter ->
  illustration_fails env image_prompt ->
  (forall choice_made story_so_far,
      join_values " " (map text (story_chapters s)) = inr story_so_far ->
      fst (generate_story_chapter env story_so_far (world_bible s) choice_made)
      = Returns ai_response ->
      story_chapters (final (story_cycle_submit env choice_made) s)
      = (story_chapters s
         ++ [ {| text := narrative_chapter; image := None |} ])%list)
  /\
  (forall initial_prompt,
      fst (generate_story_chapter env "" (world_bible s) (PyStr initial_prompt))
      = Returns ai_response ->
      exists l,
        set_image_at 0 None
          (story_chapters s ++ [ {| text := PyStr initial_prompt; image := None |} ])%list
        = Some l
        /\ story_chapters (final (story_start_submit env initial_prompt) s)
           = (l ++ [ {| text := narrative_chapter; image := None |} ])%list).
Proof.
  intros Htruthy Hip Hnc Hfail. apply illustration_fails_iff in Hfail.
  split.
  - intros c ctx Hjoin Hgen. run_handler. rewrite Hjoin.
    destruct (generate_story_chapter env ctx (world_bible s) c) as [r ev].
    simpl in Hgen. subst r. simpl. rewrite Htruthy, Hip. simpl.
    destruct (generate_image_stability env image_prompt) as [r2 ev2].
    simpl in Hfail. subst r2. simpl. rewrite Hnc. simpl.
    destruct (getitem_key ai_response "next_choices"); reflexivity.
  - intros p Hgen. run_handler. simpl.
    destruct (generate_story_chapter env "" (world_bible s) (PyStr p)) as [r ev].
    simpl in Hgen. subst r. simpl. rewrite Htruthy, Hip. simpl.
    destruct (generate_image_stability env image_prompt) as [r2 ev2].
    simpl in Hfail. subst r2. simpl.
    destruct (story_chapters s) as [| ch rest] eqn:Hchapters.
    + eexists. split; [reflexivity |].
      unfold set_image_at. simpl. rewrite Hnc. simpl.
      destruct (getitem_key ai_response "next_choices"); reflexivity.
    + eexists. split; [reflexivity |].
      unfold set_image_at. simpl. rewrite Hnc. simpl.
      destruct (getitem_key ai_response "next_choices"); reflexivity.
Qed.

(** The theorem at work: no Stability key is configured, and both
    submissions append their chapter without an image. *)
Lemma illustration_failure_still_appends_witness :
  story_chapters (final (story_cycle_submit Demo.env_ok (PyStr "Wait")) Demo.begun)
  = (story_chapters Demo.begun
     ++ [ {| text := PyStr "The clock stopped."; image := None |} ])%list.
Proof.
  assert (Hfails : illustration_fails Demo.env_ok (PyStr "starship, clock"))
    by (apply fails_unconfigured; reflexivity).
  apply (proj1 (illustration_failure_still_appends
                  Demo.env_ok Demo.begun Demo.reply (PyStr "starship, clock")
                  (PyStr "The clock stopped.") eq_refl eq_refl eq_refl Hfails)
           (PyStr "Wait") (Demo.opening ++ " " ++ "The clock stopped.")).
  - reflexivity.
  - vm_compute. reflexivity.
Defined.

(* ================================================================== *)
(** ** What the handlers can do to the state *)
(* ================================================================== *)

Lemma world_forge_submit_state env theme archetype contradiction s :
  final (world_forge_submit env theme archetype contradiction) s = s
  \/ exists bible,
      final (world_forge_submit env theme archetype contradiction) s
      = set_app_stage story_start (set_world_bible (Some bible) s).
Proof.
  run_handler.
  destruct (generate_world_bible env theme archetype contradiction) as [[b | e | ] ev];
    simpl; eauto.
Qed.

Lemma story_start_submit_state env initial_prompt s :
  let s' := final (story_start_submit env initial_prompt) s in
  world_bible s' = world_bible s
  /\ ((app_stage s' = app_stage s /\ latest_choices s' = latest_choices s)
      \/ (app_stage s' = story_cycle /\ 2 <= List.length (story_chapters s'))).
Proof.
  run_handler. split_paths; split; try reflexivity; try (left; split; reflexivity).
  right. split; [reflexivity |]. simpl.
  match goal with
  | H : set_image_at _ _ _ = Some _ |- _ => apply set_image_at_length in H as Hlen
  end.
  rewrite length_app in *. simpl in *. lia.
Qed.

Lemma story_cycle_submit_state env choice_made s :
  let s' := final (story_cycle_submit env choice_made) s in
  world_bible s' = world_bible s
  /\ app_stage s' = app_stage s
  /\ List.length (story_chapters s) <= List.length (story_chapters s').
Proof.
  run_handler. split_paths; repeat split; try reflexivity; try lia;
    simpl; rewrite length_app; lia.
Qed.

(** A page changes the state only through the handler of the button that
    was pressed. *)
Lemma page_state env a s :
  final (page env a) s = s
  \/ (exists theme archetype contradiction,
         app_stage s = world_forge
         /\ a = click_set_the_stage theme archetype contradiction
         /\ final (page env a) s
            = final (world_forge_submit env theme archetype contradiction) s)
  \/ (exists initial_prompt,
         app_stage s = story_start
         /\ a = click_start_the_saga initial_prompt
         /\ initial_prompt <> ""
         /\ final (page env a) s = final (story_start_submit env initial_prompt) s)
  \/ (exists choice_made,
         app_stage s = story_cycle
         /\ a = click_weave_next_chapter choice_made
         /\ truthy (latest_choices s) = true
         /\ final (page env a) s = final (story_cycle_submit env choice_made) s).
Proof.
  run_page. destruct (app_stage s) eqn:Hstage.
  - destruct a; simpl; auto.
    right. left. exists theme, archetype, contradiction.
    repeat split.
    destruct (world_forge_submit env theme archetype contradiction s) as [[r s'] ev].
    destruct r; reflexivity.
  - destruct a; simpl; auto.
    destruct (String.eqb_spec initial_prompt ""); simpl; auto.
    right. right. left. exists initial_prompt. repeat split; auto.
    destruct (story_start_submit env initial_prompt s) as [[r s'] ev].
    destruct r; reflexivity.
  - simpl.
    destruct (story_chapters s) as [| ch rest]; simpl.
    + destruct (truthy (latest_choices s)) eqn:Ht; simpl; auto.
      destruct a; simpl; auto.
      right. right. right. exists choice_made. repeat split; auto.
      destruct (story_cycle_submit env choice_made s) as [[r s'] ev].
      destruct r; reflexivity.
    + destruct (join_values " " (text ch :: map text rest)) as [e | full];
        simpl; auto.
      destruct (truthy (latest_choices s)) eqn:Ht; simpl.
      * destruct a; simpl; auto.
        right. right. right. exists choice_made. repeat split; auto.
        destruct (story_cycle_submit env choice_made s) as [[r s'] ev].
        destruct r; reflexivity.
      * destruct a; simpl; auto.
Qed.

(* ================================================================== *)
(** ** Sessions a user can bring about *)
(* ================================================================== *)

Lemma stage_invariant_fresh : stage_invariant fresh_state.
Proof. reflexivity. Qed.

Lemma page_invariant env a s :
  stage_invariant s -> stage_invariant (final (page env a) s).
Proof.
  intros Hinv.
  destruct (page_state env a s)
    as [-> | [(t & ar & c & Hstage & _ & ->) | [(p & Hstage & _ & _ & ->)
       | (c & Hstage & _ & _ & ->)]]]; [assumption | | |].
  - unfold stage_invariant in Hinv. rewrite Hstage in Hinv. subst s.
    destruct (world_forge_submit_state env t ar c fresh_state) as [-> | [b ->]];
      reflexivity.
  - unfold stage_invariant in *. rewrite Hstage in Hinv.
    destruct (story_start_submit_state env p s) as [_ [[Hst Hch] | [Hst Hlen]]];
      rewrite Hst.
    + rewrite Hstage. congruence.
    + exact Hlen.
  - unfold stage_invariant in *. rewrite Hstage in Hinv.
    destruct (story_cycle_submit_state env c s) as (_ & Hst & Hlen).
    rewrite Hst, Hstage. lia.
Qed.

Lemma script_invariant env a ss :
  stage_invariant (init_session ss) ->
  stage_invariant (init_session (snd (fst (script env a ss)))).
Proof.
  intros Hinv. unfold script.
  pose proof (page_invariant env a (init_session ss) Hinv) as Hpage.
  unfold final in Hpage.
  destruct (page env a (init_session ss)) as [[r s'] ev]. simpl in Hpage.
  destruct r; simpl; try assumption.
  unfold restart_section.
  destruct (negb (Stage_eqb (app_stage s') world_forge)); simpl; [| assumption].
  destruct a; simpl; try assumption. apply stage_invariant_fresh.
Qed.

Lemma interact_invariant env a ss :
  stage_invariant (init_session ss) ->
  stage_invariant (init_session (fst (interact env a ss))).
Proof.
  intros Hinv. unfold interact.
  pose proof (script_invariant env a ss Hinv) as H1.
  destruct (script env a ss) as [[r ss1] ev1]. simpl in H1.
  destruct r; simpl; try assumption.
  pose proof (script_invariant env no_action ss1 H1) as H2.
  destruct (script env no_action ss1) as [[r2 ss2] ev2]. exact H2.
Qed.

Lemma reachable_invariant ss :
  reachable ss -> stage_invariant (init_session ss).
Proof.
  induction 1 as [| env a ss _ IH _].
  - apply stage_invariant_fresh.
  - now apply interact_invariant.
Qed.

(** Outside [world_forge] the reset needs nothing of the state, and the
    click ends the run with the four keys deleted. *)
Lemma restart_outside_world_forge s :
  app_stage s <> world_forge ->
  restart_section click_restart s = (Reruns, None) /\ restart s = fresh_state.
Proof.
  intros Hstage. unfold restart, restart_section.
  destruct (app_stage s); simpl; auto. contradiction.
Qed.

(** C7. [restart()] leaves the fresh state, with stage [world_forge], no
    world bible, no chapters and no choices: from any state whose stage is
    [story_start] or [story_cycle], whatever it holds; and from any state a
    user can bring about, which covers [world_forge], where the button is
    not drawn and the state is the fresh one already. *)
Theorem restart_resets_everything (s : StoryState) :
  app_stage s <> world_forge \/ reachable (Some s) ->
  restart s = fresh_state
  /\ app_stage (restart s) = world_forge
  /\ world_bible (restart s) = None
  /\ story_chapters (restart s) = []
  /\ latest_choices (restart s) = PyList [].
Proof.
  intros Hcase.
  assert (Hfresh : restart s = fresh_state).
  { destruct Hcase as [Hstage | Hreach].
    - now apply restart_outside_world_forge.
    - apply reachable_invariant in Hreach. simpl in Hreach.
      unfold restart, restart_section, stage_invariant in *.
      destruct (app_stage s); simpl; auto. }
  rewrite Hfresh. repeat split.
Qed.


Lemma reachable_forged : reachable (Some Demo.forged).
Proof.
  replace (Some Demo.forged)
    with (fst (interact Demo.env_ok Demo.set_the_stage None))
    by (vm_compute; reflexivity).
  apply reach_step; [apply reach_new | exact I].
Qed.

Lemma reachable_begun : reachable (Some Demo.begun).
Proof.
  replace (Some Demo.begun)
    with (fst (interact Demo.env_ok (click_start_the_saga Demo.opening)
                 (Some Demo.forged)))
    by (vm_compute; reflexivity).
  apply reach_step; [apply reachable_forged | exact I].
Qed.

Lemma reachable_stalled : reachable (Some Demo.stalled).
Proof.
  replace (Some Demo.stalled)
    with (fst (interact Demo.env_garbled (click_start_the_saga Demo.opening)
                 (Some Demo.forged)))
    by (vm_compute; reflexivity).
  apply reach_step; [apply reachable_forged | exact I].
Qed.

(** The theorem at work: restarting the sample story. *)
Lemma restart_resets_everything_witness : restart Demo.begun = fresh_state.
Proof.
  exact (proj1 (restart_resets_everything Demo.begun (or_intror reachable_begun))).
Defined.

(** C3 as the spec words it fails: after an opening whose narrative call
    failed, a chapter exists and there are no choices. *)
Lemma chapters_without_choices :
  reachable (Some Demo.stalled)
  /\ story_chapters Demo.stalled <> []
  /\ latest_choices Demo.stalled = PyList []
  /\ truthy (latest_choices Demo.stalled) = false.
Proof.
  split; [exact reachable_stalled |].
  split; [discriminate |]. split; reflexivity.
Qed.

(** C3, as the code has it. In every session a user can bring about,
    choices exist only once chapters do: with no chapter, [latest_choices]
    is the initial empty list, and a [latest_choices] other than that means
    stage [story_cycle] with at least two chapters. A submission that runs
    to its rerun, in [story_cycle] as in [story_start], overwrites
    [latest_choices] with the [next_choices] of the reply, whatever it held
    before. *)
Theorem choices_only_after_chapters (ss : Session) :
  reachable ss ->
  let s := init_session ss in
  (story_chapters s = [] -> latest_choices s = PyList [])
  /\ (latest_choices s <> PyList [] ->
      app_stage s = story_cycle /\ 2 <= List.length (story_chapters s))
  /\ (forall env choice_made,
         result (story_cycle_submit env choice_made) s = Reruns ->
         exists story_so_far ai_response,
           join_values " " (map text (story_chapters s)) = inr story_so_far
           /\ fst (generate_story_chapter env story_so_far (world_bible s) choice_made)
              = Returns ai_response
           /\ getitem_key ai_response "next_choices"
              = inr (latest_choices (final (story_cycle_submit env choice_made) s)))
  /\ (forall env initial_prompt,
         result (story_start_submit env initial_prompt) s = Reruns ->
         exists ai_response,
           fst (generate_story_chapter env "" (world_bible s) (PyStr initial_prompt))
           = Returns ai_response
           /\ getitem_key ai_response "next_choices"
              = inr (latest_choices
                       (final (story_start_submit env initial_prompt) s))).
Proof.
  intros Hreach s. apply reachable_invariant in Hreach. fold s in Hreach.
  unfold stage_invariant in Hreach.
  split; [| split; [| split]].
  - intros Hnone. destruct (app_stage s); [now rewrite Hreach | assumption |].
    rewrite Hnone in Hreach. simpl in Hreach. lia.
  - intros Hsome. destruct (app_stage s); [| contradiction | now split].
    rewrite Hreach in Hsome. now contradiction Hsome.
  - intros env c Hok.
    destruct (story_cycle_reruns_inv env s c Hok)
      as (ctx & v & ip & img & nc & ch & Hjoin & Hgen & _ & _ & _ & _ & Hch & ->).
    exists ctx, v. repeat split; assumption.
  - intros env p Hok.
    destruct (story_start_reruns_inv env s p Hok)
      as (v & ip & img & nc & ch & l & Hgen & _ & _ & _ & _ & Hch & _ & ->).
    exists v. split; assumption.
Qed.

(** The theorem at work on the sample story: the state after the opening
    has its two chapters, and its choices are the [next_choices] of the
    reply to the opening. *)
Lemma choices_only_after_chapters_witness :
  (app_stage Demo.begun = story_cycle
   /\ 2 <= List.length (story_chapters Demo.begun))
  /\ getitem_key Demo.reply "next_choices"
     = inr (latest_choices
              (final (story_start_submit Demo.env_ok Demo.opening) Demo.forged)).
Proof.
  split.
  - apply (proj1 (proj2 (choices_only_after_chapters (Some Demo.begun)
                           reachable_begun))).
    discriminate.
  - destruct (proj2 (proj2 (proj2 (choices_only_after_chapters (Some Demo.forged)
                                     reachable_forged)))
                Demo.env_ok Demo.opening eq_refl)
      as (ai_response & Hgen & Hchoices).
    vm_compute in Hgen. injection Hgen as <-. exact Hchoices.
Defined.

(* ================================================================== *)
(** ** What reaches the text model *)
(* ================================================================== *)

Lemma all_str_map l texts : all_str l = inr texts -> map PyStr texts = l.
Proof.
  revert texts. induction l as [| v l IH]; intros texts H; simpl in H.
  - injection H as <-. reflexivity.
  - destruct v; try discriminate.
    destruct (all_str l) as [e | ss]; [discriminate |].
    injection H as <-. simpl. f_equal. now apply IH.
Qed.

Lemma occurs_in_refl x : occurs_in x x.
Proof. exists "", "". simpl. now rewrite append_empty_r. Qed.

Lemma occurs_in_append_l p x y : occurs_in p y -> occurs_in p (x ++ y).
Proof.
  intros (a & b & ->). exists (x ++ a), b. now rewrite append_assoc.
Qed.

Lemma occurs_in_append_r p x y : occurs_in p x -> occurs_in p (x ++ y).
Proof.
  intros (a & b & ->). exists a, (b ++ y). now rewrite !append_assoc.
Qed.

(** Every joined item occurs in the joined text. *)
Lemma occurs_in_join sep t l : In t l -> occurs_in t (join sep l).
Proof.
  induction l as [| x rest IH]; [contradiction |].
  intros [-> | Hin].
  - destruct rest; simpl; [apply occurs_in_refl |].
    apply occurs_in_append_r, occurs_in_refl.
  - destruct rest as [| y rest']; [contradiction |].
    change (join sep (x :: y :: rest')) with (x ++ sep ++ join sep (y :: rest')).
    now apply occurs_in_append_l, occurs_in_append_l, IH.
Qed.

Lemma occurs_in_slot pre label v post rest :
  occurs_in (label ++ v ++ post) ((pre ++ label) ++ v ++ post ++ rest).
Proof.
  exists pre, rest. rewrite <- !append_assoc. reflexivity.
Qed.

Lemma chapter_prompt_steps_opening :
  exists rest, chapter_prompt_steps = dq ++ "." ++ rest.
Proof. unfold chapter_prompt_steps. eexists. reflexivity. Qed.

(** The three holes of the chapter prompt: what fills each one sits
    between the words that announce it and the closing quote. *)
Lemma chapter_prompt_slots env story_context bible choice :
  let prompt := chapter_prompt env story_context bible choice in
  occurs_in ("The user's choice for the last chapter was: " ++ dq
             ++ fmt env choice ++ dq ++ ".") prompt
  /\ occurs_in ("The full story context so far is: " ++ dq
                ++ story_context ++ dq ++ ".") prompt
  /\ occurs_in ("The secret World Bible for this universe is: " ++ dq
                ++ fmt_opt bible ++ dq ++ ".") prompt.
Proof.
  unfold chapter_prompt. repeat split.
  - exact (occurs_in_slot
             (nl ++ "    You are a multi-persona Storytelling Engine. Follow these steps precisely." ++ nl ++ "    ")
             ("The user's choice for the last chapter was: " ++ dq)
             (fmt env choice) (dq ++ ".")
             (nl ++ "    The full story context so far is: " ++ dq
              ++ story_context ++ chapter_prompt_bible ++ fmt_opt bible
              ++ chapter_prompt_steps)).
  - do 2 apply occurs_in_append_l.
    exact (occurs_in_slot
             (dq ++ "." ++ nl ++ "    ")
             ("The full story context so far is: " ++ dq)
             story_context (dq ++ ".")
             (nl ++ "    The secret World Bible for this universe is: " ++ dq
              ++ fmt_opt bible ++ chapter_prompt_steps)).
  - do 4 apply occurs_in_append_l.
    destruct chapter_prompt_steps_opening as [rest ->].
    exact (occurs_in_slot
             (dq ++ "." ++ nl ++ "    ")
             ("The secret World Bible for this universe is: " ++ dq)
             (fmt_opt bible) (dq ++ ".") rest).
Qed.

(** The illustration helper never calls the text model, and the narrative
    helper calls it once, with the chapter prompt. *)
Lemma generate_image_stability_trace env image_prompt prompt cfg :
  ~ In (call_generate_content prompt cfg)
      (snd (generate_image_stability env image_prompt)).
Proof.
  unfold generate_image_stability.
  repeat match goal with
    | |- context [match ?x with _ => _ end] =>
        lazymatch x with
        | context [match _ with _ => _ end] => fail
        | _ => destruct x
        end
    | |- context [if ?x then _ else _] => destruct x
    end; simpl; intuition discriminate.
Qed.

Lemma generate_story_chapter_trace env story_context bible choice prompt cfg :
  In (call_generate_content prompt cfg)
     (snd (generate_story_chapter env story_context bible choice)) ->
  prompt = chapter_prompt env story_context bible choice.
Proof.
  unfold generate_story_chapter.
  destruct (generate_content env _ _); [| destruct (json_loads env _)]; simpl;
    intros H; repeat destruct H as [H | H]; try discriminate; try contradiction;
    now injection H.
Qed.

Lemma story_cycle_submit_trace env choice_made s ev :
  In ev (trace (story_cycle_submit env choice_made) s) ->
  exists story_so_far,
    join_values " " (map text (story_chapters s)) = inr story_so_far
    /\ (In ev (snd (generate_story_chapter env story_so_far (world_bible s)
                      choice_made))
        \/ exists image_prompt,
             In ev (snd (generate_image_stability env image_prompt))).
Proof.
  run_handler.
  destruct (join_values " " (map text (story_chapters s))) as [e | ctx];
    simpl; [contradiction |].
  intros H. exists ctx. split; [reflexivity |]. revert H.
  split_paths; simpl; intros H; repeat rewrite in_app_iff in H; simpl in H;
    intuition eauto.
Qed.

(** C8. Whenever a [story_cycle] submission calls the text model, the
    prompt is the chapter prompt built from the texts of all chapters so
    far, in list order, joined by single spaces; from the world bible of
    the session; and from the submitted choice. The joined texts stand in
    the prompt between the words that announce the story context and the
    closing quote; the world bible itself stands in its place the same
    way, and so does the choice itself when it is a string (any other
    value stands there as [str] renders it). Every chapter text occurs in
    the context, and the submission leaves the world bible as it was. *)
Theorem story_cycle_context_is_all_chapters
    (env : Env) (s : StoryState) (choice_made : pyobj)
    (prompt : string) (cfg : option GenerationConfig) :
  In (call_generate_content prompt cfg)
     (trace (story_cycle_submit env choice_made) s) ->
  exists texts,
    map PyStr texts = map text (story_chapters s)
    /\ prompt = chapter_prompt env (join " " texts) (world_bible s) choice_made
    /\ occurs_in ("The full story context so far is: " ++ dq
                  ++ join " " texts ++ dq ++ ".") prompt
    /\ match world_bible s with
       | Some bible =>
           occurs_in ("The secret World Bible for this universe is: " ++ dq
                      ++ bible ++ dq ++ ".") prompt
       | None =>
           occurs_in ("The secret World Bible for this universe is: " ++ dq
                      ++ "None" ++ dq ++ ".") prompt
       end
    /\ match choice_made with
       | PyStr choice =>
           occurs_in ("The user's choice for the last chapter was: " ++ dq
                      ++ choice ++ dq ++ ".") prompt
       | other =>
           occurs_in ("The user's choice for the last chapter was: " ++ dq
                      ++ py_str env other ++ dq ++ ".") prompt
       end
    /\ (forall t, In t texts -> occurs_in t (join " " texts))
    /\ world_bible (final (story_cycle_submit env choice_made) s) = world_bible s.
Proof.
  intros Hcall.
  destruct (story_cycle_submit_trace env choice_made s _ Hcall)
    as (ctx & Hjoin & [Hgen | [ip Himg]]).
  - unfold join_values in Hjoin.
    destruct (all_str (map text (story_chapters s))) as [e | texts] eqn:Htexts;
      [discriminate |].
    injection Hjoin as <-.
    apply generate_story_chapter_trace in Hgen. subst prompt.
    exists texts.
    destruct (chapter_prompt_slots env (join " " texts) (world_bible s) choice_made)
      as (Hchoice & Hctx & Hbible).
    split; [now apply all_str_map |].
    split; [reflexivity |].
    split; [exact Hctx |].
    split; [destruct (world_bible s); exact Hbible |].
    split; [destruct choice_made; exact Hchoice |].
    split; [intros t Hin; now apply occurs_in_join |].
    apply (story_cycle_submit_state env choice_made s).
  - exfalso. exact (generate_image_stability_trace env ip prompt cfg Himg).
Qed.

(** The theorem at work: the second choice of the sample story. The
    prompt that goes out holds both chapters, the world bible and the
    choice, each in its place. *)
Lemma story_cycle_context_is_all_chapters_witness :
  exists prompt,
    In (call_generate_content prompt (Some chapter_config))
       (trace (story_cycle_submit Demo.env_ok (PyStr "Wait")) Demo.begun)
    /\ occurs_in ("The full story context so far is: " ++ dq
                  ++ "The last starship captain woke. The clock stopped."
                  ++ dq ++ ".") prompt
    /\ occurs_in ("The secret World Bible for this universe is: " ++ dq
                  ++ "A city of bored wizards." ++ dq ++ ".") prompt
    /\ occurs_in ("The user's choice for the last chapter was: " ++ dq
                  ++ "Wait" ++ dq ++ ".") prompt.
Proof.
  exists (chapter_prompt Demo.env_ok
            "The last starship captain woke. The clock stopped."
            (world_bible Demo.begun) (PyStr "Wait")).
  assert (Hcall :
    In (call_generate_content
          (chapter_prompt Demo.env_ok
             "The last starship captain woke. The clock stopped."
             (world_bible Demo.begun) (PyStr "Wait"))
          (Some chapter_config))
       (trace (story_cycle_submit Demo.env_ok (PyStr "Wait")) Demo.begun)).
  { vm_compute. left. reflexivity. }
  split; [exact Hcall |].
  destruct (story_cycle_context_is_all_chapters
              Demo.env_ok Demo.begun (PyStr "Wait") _ _ Hcall)
    as (texts & Hmap & _ & Hctx & Hbible & Hchoice & _).
  simpl in Hmap.
  destruct texts as [| t1 [| t2 [| t3 rest]]]; try discriminate.
  injection Hmap as -> ->.
  repeat split; assumption.
Defined.

(* ================================================================== *)
(** ** Where the choice comes from *)
(* ================================================================== *)

Lemma render_trace env chapters prompt cfg :
  ~ In (call_generate_content prompt cfg)
      (flat_map (render_chapter env) chapters).
Proof.
  intros H. apply in_flat_map in H as (ch & _ & H).
  unfold render_chapter in H. destruct (image ch); simpl in H;
    intuition discriminate.
Qed.

(** On the [story_cycle] page the text model is called only by the
    handler of the choice form. *)
Lemma story_cycle_page_trace env a s prompt cfg :
  app_stage s = story_cycle ->
  In (call_generate_content prompt cfg) (trace (page env a) s) ->
  exists choice_made,
    a = click_weave_next_chapter choice_made
    /\ truthy (latest_choices s) = true
    /\ In (call_generate_content prompt cfg)
          (trace (story_cycle_submit env choice_made) s).
Proof.
  intros Hstage. run_page. rewrite Hstage. simpl.
  pose proof (render_trace env (story_chapters s) prompt cfg) as Hrender.
  destruct (story_chapters s) as [| ch rest] eqn:Hchapters; simpl.
  - destruct (truthy (latest_choices s)) eqn:Ht; simpl;
      [| intros H; rewrite ?app_nil_r in H; contradiction].
    destruct a; simpl; intros H; rewrite ?app_nil_r in H; try contradiction.
    exists choice_made. repeat split.
    destruct (story_cycle_submit env choice_made s) as [[r s'] ev].
    destruct r; simpl in *; exact H.
  - simpl in Hrender.
    destruct (join_values " " (text ch :: map text rest)) as [e | full]; simpl;
      [intros H; rewrite ?app_nil_r in H; contradiction |].
    rewrite in_app_iff in Hrender. unfold text_to_speech_player.
    destruct (truthy (latest_choices s)) eqn:Ht.
    + destruct a; simpl; intros H;
        repeat (rewrite in_app_iff in H; simpl in H);
        try (exfalso; intuition discriminate).
      exists choice_made. repeat split.
      destruct (story_cycle_submit env choice_made s) as [[r s'] ev].
      destruct r; simpl in *; repeat (rewrite in_app_iff in H; simpl in H);
        intuition.
    + destruct a; simpl; intros H;
        repeat (rewrite in_app_iff in H; simpl in H);
        exfalso; intuition discriminate.
Qed.

Lemma script_trace env a ss :
  snd (script env a ss) = trace (page env a) (init_session ss).
Proof.
  unfold script, trace.
  destruct (page env a (init_session ss)) as [[r s'] ev].
  destruct r; try reflexivity.
  destruct (restart_section a s'). reflexivity.
Qed.

(** What the radio returns for a list is one of its items. *)
Lemma st_radio_list radio_of_other options selected choice_made :
  st_radio radio_of_other (PyList options) selected = inr choice_made ->
  nth_error options selected = Some choice_made /\ In choice_made options.
Proof.
  simpl. destruct (nth_error options selected) as [c |] eqn:Hnth; [| discriminate].
  intros H. injection H as <-. split; [reflexivity |].
  exact (nth_error_In _ _ Hnth).
Qed.

(** The radio can return exactly what the page offers. *)
Lemma radio_returns_st_radio radio_of_other options choice :
  radio_returns (PyList options) choice
  <-> exists selected,
        st_radio radio_of_other (PyList options) selected = inr choice.
Proof.
  split.
  - intros H. inversion H as [opts c Hin | opts c Hother]; subst.
    + destruct (In_nth_error _ _ Hin) as [n Hn]. exists n. simpl. now rewrite Hn.
    + now contradiction (Hother options).
  - intros [n H]. apply st_radio_list in H as [_ Hin]. now apply radio_list.
Qed.

(** C9. A choice that is not among the pending ones is never submitted,
    and every choice that reaches the text model is one of them. The
    handler has no test of its own: the choice form hands it what
    [st.radio] returned, and the radio is filled from [latest_choices]. So,
    while [latest_choices] is a list, whatever position the browser
    reports and whether or not the button was pressed: a call to the text
    model means the button was pressed, the radio returned an item of the
    list, and the prompt is the chapter prompt for that item; no value
    outside the list is what the radio returns; the form either leaves the
    state as it was or runs the handler on an item of the list; and the
    run of the whole script on that press sends the same prompt. *)
Theorem submitted_choice_was_offered
    (radio_of_other : pyobj -> nat -> exn + pyobj)
    (env : Env) (s : StoryState) (options : list pyobj)
    (selected : nat) (pressed : bool) :
  latest_choices s = PyList options ->
  (forall prompt cfg,
      In (call_generate_content prompt cfg)
         (trace (choice_form radio_of_other env selected pressed) s) ->
      exists choice_made story_so_far,
        st_radio radio_of_other (latest_choices s) selected = inr choice_made
        /\ In choice_made options
        /\ pressed = true
        /\ join_values " " (map text (story_chapters s)) = inr story_so_far
        /\ prompt = chapter_prompt env story_so_far (world_bible s) choice_made)
  /\ (forall choice,
         ~ In choice options ->
         st_radio radio_of_other (latest_choices s) selected <> inr choice)
  /\ (final (choice_form radio_of_other env selected pressed) s = s
      \/ exists choice_made,
           In choice_made options
           /\ pressed = true
           /\ final (choice_form radio_of_other env selected pressed) s
              = final (story_cycle_submit env choice_made) s)
  /\ (forall choice_made prompt cfg,
         st_radio radio_of_other (latest_choices s) selected = inr choice_made ->
         app_stage s = story_cycle ->
         In (call_generate_content prompt cfg)
            (snd (script env (click_weave_next_chapter choice_made) (Some s))) ->
         In choice_made options
         /\ exists story_so_far,
              join_values " " (map text (story_chapters s)) = inr story_so_far
              /\ prompt = chapter_prompt env story_so_far (world_bible s) choice_made).
Proof.
  intros Hlist. rewrite Hlist.
  assert (Hform :
    choice_form radio_of_other env selected pressed s
    = match options with
      | [] => (Returns tt, s, [])
      | _ :: _ =>
          match nth_error options selected with
          | None => (Raises IndexError, s, [])
          | Some c =>
              if pressed then story_cycle_submit env c s else (Returns tt, s, [])
          end
      end).
  { unfold choice_form, bind, get_state, subscript, ret. rewrite Hlist.
    destruct options as [| o rest]; [reflexivity |].
    cbn [truthy st_radio].
    destruct (nth_error (o :: rest) selected) as [c |]; [| reflexivity].
    destruct pressed; [| reflexivity].
    destruct (story_cycle_submit env c s) as [[r s'] ev]. reflexivity. }
  split; [| split; [| split]].
  - intros prompt cfg. unfold trace. rewrite Hform.
    destruct options as [| o rest]; [intros [] |].
    destruct (nth_error (o :: rest) selected) as [c |] eqn:Hnth; [| intros []].
    destruct pressed; [| intros []].
    intros Hcall.
    destruct (story_cycle_submit_trace env c s _ Hcall)
      as (ctx & Hjoin & [Hgen | [ip Himg]]).
    + exists c, ctx. simpl. rewrite Hnth.
      repeat split; auto.
      * exact (nth_error_In _ _ Hnth).
      * exact (generate_story_chapter_trace _ _ _ _ _ _ Hgen).
    + exfalso. exact (generate_image_stability_trace env ip prompt cfg Himg).
  - intros c Hnot H. apply st_radio_list in H as [_ Hin]. now apply Hnot.
  - unfold final. rewrite Hform.
    destruct options as [| o rest]; [now left |].
    destruct (nth_error (o :: rest) selected) as [c |] eqn:Hnth; [| now left].
    destruct pressed; [| now left].
    right. exists c. repeat split. exact (nth_error_In _ _ Hnth).
  - intros c prompt cfg Hradio Hstage Hcall.
    apply st_radio_list in Hradio as [_ Hin]. split; [exact Hin |].
    rewrite script_trace in Hcall. simpl in Hcall.
    destruct (story_cycle_page_trace env _ s prompt cfg Hstage Hcall)
      as (c' & Heq & _ & Hsubmit).
    injection Heq as <-.
    destruct (story_cycle_submit_trace env c s _ Hsubmit)
      as (ctx & Hjoin & [Hgen | [ip Himg]]).
    + exists ctx. split; [exact Hjoin |].
      exact (generate_story_chapter_trace _ _ _ _ _ _ Hgen).
    + exfalso. exact (generate_image_stability_trace env ip prompt cfg Himg).
Qed.

(** The theorem at work: the second item of the radio of the sample story
    is picked and the button pressed. What reaches the text model is the
    second of the three choices on offer. *)
Lemma submitted_choice_was_offered_witness :
  exists choice_made,
    choice_made = PyStr "Wait"
    /\ In choice_made [PyStr "Open the hatch"; PyStr "Wait"; PyStr "Run"]
    /\ In (call_generate_content
             (chapter_prompt Demo.env_ok
                "The last starship captain woke. The clock stopped."
                (world_bible Demo.begun) choice_made)
             (Some chapter_config))
          (trace (choice_form (fun _ _ => inl TypeError) Demo.env_ok 1 true)
             Demo.begun).
Proof.
  assert (Hcall :
    In (call_generate_content
          (chapter_prompt Demo.env_ok
             "The last starship captain woke. The clock stopped."
             (world_bible Demo.begun) (PyStr "Wait"))
          (Some chapter_config))
       (trace (choice_form (fun _ _ => inl TypeError) Demo.env_ok 1 true)
          Demo.begun)).
  { vm_compute. left. reflexivity. }
  destruct (proj1 (submitted_choice_was_offered
                     (fun _ _ => inl TypeError) Demo.env_ok Demo.begun
                     [PyStr "Open the hatch"; PyStr "Wait"; PyStr "Run"]
                     1 true eq_refl) _ _ Hcall)
    as (c & ctx & Hradio & Hin & _).
  exists c. vm_compute in Hradio. injection Hradio as <-.
  repeat split; assumption.
Defined.

(* ================================================================== *)
(** ** Narration *)
(* ================================================================== *)

Example demo_safe_text_quotes :
  safe_text ("She said " ++ dq ++ "it's late" ++ dq ++ nl ++ "and left." ++ nl)
  = "She said " ++ bs ++ dq ++ "it" ++ bs ++ "'s late" ++ bs ++ dq ++ " and left.".
Proof. vm_compute. reflexivity. Qed.

Example demo_safe_text_quotes_escaped :
  has_unescaped false
    (safe_text ("She said " ++ dq ++ "it's late" ++ dq ++ nl ++ "and left." ++ nl))
  = false.
Proof. vm_compute. reflexivity. Qed.

Lemma subst_char_cons c new x rest :
  subst_char c new (String x rest)
  = if Ascii.eqb c x then new ++ subst_char c new rest
    else String x (subst_char c new rest).
Proof. reflexivity. Qed.

(** Replacing one character is a character-by-character substitution. *)
Lemma replace_char c new s : replace (String c "") new s = subst_char c new s.
Proof.
  unfold replace. induction s as [| x rest IH]; [reflexivity |].
  unfold replace_scan; fold replace_scan.
  rewrite prefix_cons, prefix_nil, subst_char_cons.
  destruct (Ascii.eqb c x); cbn [String.length Nat.sub]; now rewrite IH.
Qed.

Lemma all_chars_append f x y :
  all_chars f (x ++ y) = all_chars f x && all_chars f y.
Proof.
  induction x as [| c x IH]; simpl; [reflexivity |].
  now rewrite IH, andb_assoc.
Qed.

Lemma all_chars_lstrip f s : all_chars f s = true -> all_chars f (lstrip s) = true.
Proof.
  induction s as [| c s IH]; simpl; [auto |].
  intros H. destruct (is_space c); [| exact H].
  apply andb_prop in H as [_ H]. auto.
Qed.

Lemma all_chars_rstrip f s : all_chars f s = true -> all_chars f (rstrip s) = true.
Proof.
  induction s as [| c s IH]; simpl; [auto |].
  intros H. apply andb_prop in H as [Hc Hs]. specialize (IH Hs).
  destruct (rstrip s) as [| c' r].
  - destruct (is_space c); simpl; [reflexivity | now rewrite Hc].
  - simpl in *. now rewrite Hc, IH.
Qed.

(** X23. Whatever the text, no line feed is left in [safe_text]. *)
Lemma safe_text_has_no_line_feed text :
  all_chars (fun c => negb (Ascii.eqb c "010")) (safe_text text) = true.
Proof.
  unfold safe_text, strip. apply all_chars_rstrip, all_chars_lstrip.
  change nl with (String "010" ""). rewrite replace_char.
  generalize (replace dq (bs ++ dq) (replace sq (bs ++ sq) text)) as s.
  induction s as [| x rest IH]; [reflexivity |].
  rewrite subst_char_cons. destruct (Ascii.eqb_spec "010" x) as [<- | Hne].
  - rewrite all_chars_append, IH. reflexivity.
  - cbn [all_chars]. rewrite IH, andb_true_r. apply negb_true_iff.
    apply Ascii.eqb_neq. congruence.
Qed.

Lemma subst_char_append c new x y :
  subst_char c new (x ++ y) = subst_char c new x ++ subst_char c new y.
Proof.
  induction x as [| a x IH]; [reflexivity |].
  change (String a x ++ y) with (String a (x ++ y)).
  rewrite !subst_char_cons, IH.
  destruct (Ascii.eqb c a); [now rewrite append_assoc | reflexivity].
Qed.

Lemma safe_text_escape_text text : safe_text text = strip (escape_text text).
Proof.
  unfold safe_text, escape_text.
  change nl with (String "010" ""). change dq with (String "034" "").
  change sq with (String "039" "").
  now rewrite !replace_char.
Qed.

Lemma escape_text_cons c text :
  escape_text (String c text) = escape_text (String c "") ++ escape_text text.
Proof.
  unfold escape_text.
  change (String c text) with (String c "" ++ text).
  now rewrite !subst_char_append.
Qed.

Lemma escaped_body_lstrip plain body :
  escaped_body plain body -> escaped_body plain (lstrip body).
Proof.
  induction 1 as [| c rest Hc Hrest IH | c rest Hc Hrest IH]; simpl.
  - constructor.
  - destruct (is_space c); [exact IH | now constructor].
  - now constructor.
Qed.

Lemma escaped_body_rstrip plain body :
  escaped_body plain body -> escaped_body plain (rstrip body).
Proof.
  induction 1 as [| c rest Hc Hrest IH | c rest Hc Hrest IH].
  - constructor.
  - simpl. destruct (rstrip rest) as [| c' r].
    + destruct (is_space c); repeat constructor; auto.
    + now constructor.
  - assert (Hinner : rstrip (String c rest) = String c (rstrip rest)).
    { simpl. destruct (rstrip rest); [now rewrite Hc | reflexivity]. }
    change (rstrip (String "092" (String c rest)))
      with (match rstrip (String c rest) with
            | EmptyString =>
                if is_space "092" then EmptyString else String "092" EmptyString
            | String _ _ as r => String "092" r
            end).
    rewrite Hinner. now constructor.
Qed.

(** The shape of the text after the three replacements: a quote has become
    a pair, a line feed a blank, and every other character stays. *)
Lemma escape_text_body plain text :
  plain " "%char = true ->
  all_chars (fun c => breaks_literal c || plain c) text = true ->
  escaped_body plain (escape_text text).
Proof.
  intros Hblank. induction text as [| c text IH]; [constructor |].
  simpl all_chars. intros H. apply andb_prop in H as [Hc Htext].
  specialize (IH Htext). rewrite escape_text_cons.
  destruct (Ascii.eqb_spec "039" c) as [<- | Hsq];
    [now apply (escaped_pair plain "039") |].
  destruct (Ascii.eqb_spec "034" c) as [<- | Hdq];
    [now apply (escaped_pair plain "034") |].
  destruct (Ascii.eqb_spec "010" c) as [<- | Hlf];
    [now apply (escaped_plain plain " ") |].
  apply Ascii.eqb_neq in Hsq, Hdq, Hlf.
  assert (Hone : escape_text (String c "") = String c "").
  { unfold escape_text.
    cbn [subst_char]. rewrite Hsq. cbn [subst_char]. rewrite Hdq.
    cbn [subst_char]. now rewrite Hlf. }
  rewrite Hone. apply escaped_plain; auto.
  unfold breaks_literal in Hc.
  now rewrite (Ascii.eqb_sym c "034"), (Ascii.eqb_sym c "039"),
    (Ascii.eqb_sym c "010"), Hsq, Hdq, Hlf in Hc.
Qed.

Lemma safe_text_body plain text :
  plain " "%char = true ->
  all_chars (fun c => breaks_literal c || plain c) text = true ->
  escaped_body plain (safe_text text).
Proof.
  intros Hblank Htext. rewrite safe_text_escape_text. unfold strip.
  now apply escaped_body_rstrip, escaped_body_lstrip, escape_text_body.
Qed.

Lemma escaped_body_has_none body :
  escaped_body harmless body -> has_unescaped false body = false.
Proof.
  induction 1 as [| c rest Hc _ IH | c rest _ _ IH]; simpl.
  - reflexivity.
  - unfold harmless in Hc. apply andb_prop in Hc as [Hbs Hbreak].
    apply negb_true_iff in Hbs, Hbreak. now rewrite Hbs, Hbreak, IH.
  - exact IH.
Qed.

Lemma escaped_body_quotes body :
  escaped_body (fun c => negb (breaks_literal c)) body ->
  forall after_backslash, quotes_follow_backslash after_backslash body = true.
Proof.
  induction 1 as [| c rest Hc _ IH | c rest _ _ IH]; intros b.
  - reflexivity.
  - cbn [quotes_follow_backslash]. rewrite IH, andb_true_r.
    apply negb_true_iff in Hc. unfold breaks_literal in Hc.
    apply orb_false_elim in Hc as [Hc _]. now rewrite Hc.
  - cbn [quotes_follow_backslash]. rewrite IH.
    now destruct (Ascii.eqb c "034" || Ascii.eqb c "039").
Qed.

(** X24. Whatever the text, every quote left in [safe_text] has a
    backslash right before it. *)
Lemma safe_text_quotes_follow_backslash text :
  quotes_follow_backslash false (safe_text text) = true.
Proof.
  apply escaped_body_quotes, safe_text_body; [reflexivity |].
  induction text as [| c text IH]; [reflexivity |].
  simpl all_chars. rewrite IH, andb_true_r. apply orb_negb_r.
Qed.

(** X25. On a text without backslashes [safe_text] does what is asked of
    it: no quote or line feed is left unescaped. *)
Lemma safe_text_without_backslash text :
  all_chars (fun c => negb (Ascii.eqb c "092")) text = true ->
  has_unescaped false (safe_text text) = false.
Proof.
  intros H. apply escaped_body_has_none, safe_text_body; [reflexivity |].
  induction text as [| c text IH]; [reflexivity |].
  simpl all_chars in *. apply andb_prop in H as [Hc Htext].
  rewrite (IH Htext), andb_true_r. unfold harmless. rewrite Hc.
  now destruct (breaks_literal c).
Qed.

(** C10 fails on a text that holds a backslash before a quote.
    [safe_text] puts a backslash before the quote and leaves the one that
    was there: the two pair up, the quote stands unescaped, and in the
    script it closes the literal of [SpeechSynthesisUtterance]. (Every
    quote does follow a backslash and no line feed is left, whatever the
    text; what is missed is the backslash itself.) *)
Theorem safe_text_leaves_backslash_alone :
  safe_text (bs ++ dq) = bs ++ bs ++ dq
  /\ has_unescaped false (safe_text (bs ++ dq)) = true
  /\ text_to_speech_player (bs ++ dq)
     = (Returns tt,
        [components_html
           (speech_script_head ++ (bs ++ bs ++ dq) ++ speech_script_tail)]).
Proof. vm_compute. repeat split. Qed.

(* ================================================================== *)
(** ** Beyond the claims: login *)
(* ================================================================== *)

Lemma list_index_bound x l i : list_index x l = Some i -> i < List.length l.
Proof.
  revert i. induction l as [| v rest IH]; intros i H; simpl in H; [discriminate |].
  destruct (str_eq x v).
  - injection H as <-. simpl. lia.
  - destruct (list_index x rest) as [j |]; [| discriminate].
    injection H as <-. simpl. specialize (IH j eq_refl). lia.
Qed.

Lemma list_index_none x l : list_index x l = None <-> ~ In (PyStr x) l.
Proof.
  induction l as [| v rest IH]; simpl; [tauto |].
  destruct (str_eq x v) eqn:Hv.
  - split; [discriminate |]. intros H. exfalso. apply H. left.
    destruct v; try discriminate. simpl in Hv.
    apply String.eqb_eq in Hv. now subst.
  - destruct (list_index x rest) as [j |]; simpl.
    + split; [discriminate |]. intros H. exfalso.
      assert (Hrest : ~ In (PyStr x) rest) by tauto.
      apply IH in Hrest. discriminate.
    + split; [| reflexivity]. intros _ [Hhd | Htl].
      * subst v. simpl in Hv. now rewrite String.eqb_refl in Hv.
      * now apply (proj1 IH eq_refl).
Qed.

(** With both tables lists, the lookup in them. *)
Lemma verify_login_lists host usernames passwords username password :
  verify_login host (PyList usernames) (PyList passwords) username password
  = match list_index username usernames with
    | None => inr false
    | Some index =>
        match nth_error passwords index with
        | Some stored => inr (str_eq (sha256_hexdigest host password) stored)
        | None => inl (Builtin IndexError)
        end
    end.
Proof.
  unfold verify_login. simpl.
  destruct (list_index username usernames) as [i |]; [| reflexivity].
  simpl. destruct (nth_error passwords i); reflexivity.
Qed.

(** X1. With list tables in [st.secrets], [check_login] returns [True]
    exactly when the entry of the passwords table at the first position of
    the username is the digest of the password. *)
Theorem check_login_accepts_iff
    (host : Host) (env : Env) (usernames passwords : list pyobj)
    (username password : string) :
  secrets_usernames host = Some (PyList usernames) ->
  secrets_passwords host = Some (PyList passwords) ->
  (fst (check_login host env username password) = inr true
   <-> exists index,
         list_index username usernames = Some index
         /\ nth_error passwords index
            = Some (PyStr (sha256_hexdigest host password))).
Proof.
  intros Hu Hp. unfold check_login. rewrite Hu, Hp. simpl fst.
  rewrite verify_login_lists.
  destruct (list_index username usernames) as [i |].
  - destruct (nth_error passwords i) as [stored |] eqn:Hnth.
    + split.
      * intros H. injection H as H. exists i. split; [reflexivity |].
        destruct stored; try discriminate. simpl in H.
        apply String.eqb_eq in H. now subst.
      * intros (j & Hj & Hs). injection Hj as <-. rewrite Hnth in Hs.
        injection Hs as ->. simpl. now rewrite String.eqb_refl.
    + split; [discriminate |]. intros (j & Hj & Hs). injection Hj as <-.
      rewrite Hnth in Hs. discriminate.
  - split; [discriminate |]. intros (j & Hj & _). discriminate.
Qed.

(** The theorem at work: [ada] logs in with her password. *)
Lemma check_login_accepts_iff_witness :
  fst (check_login DemoLogin.host Demo.env_ok "ada" "lovelace") = inr true.
Proof.
  apply (proj2 (check_login_accepts_iff DemoLogin.host Demo.env_ok
                  [PyStr "ada"; PyStr "bob"]
                  [PyStr "sha256:lovelace"; PyStr "sha256:builder"]
                  "ada" "lovelace" eq_refl eq_refl)).
  exists 0. split; reflexivity.
Defined.

(** X2. A username listed twice logs in with the password of its first
    entry only: the password of a later entry is refused. *)
Theorem check_login_first_entry_wins
    (host : Host) (env : Env) (usernames passwords : list pyobj)
    (username password : string) (first later : nat) (stored : pyobj) :
  secrets_usernames host = Some (PyList usernames) ->
  secrets_passwords host = Some (PyList passwords) ->
  list_index username usernames = Some first ->
  nth_error usernames later = Some (PyStr username) ->
  nth_error passwords later = Some (PyStr (sha256_hexdigest host password)) ->
  nth_error passwords first = Some stored ->
  stored <> PyStr (sha256_hexdigest host password) ->
  check_login host env username password = (inr false, []).
Proof.
  intros Hu Hp Hfirst _ _ Hstored Hne. unfold check_login. rewrite Hu, Hp.
  rewrite verify_login_lists, Hfirst, Hstored. f_equal. f_equal.
  destruct stored; try reflexivity. simpl.
  apply String.eqb_neq. congruence.
Qed.

(** The theorem at work: the second [ada] cannot log in. *)
Lemma check_login_first_entry_wins_witness :
  check_login DemoLogin.host_twice Demo.env_ok "ada" "byron" = (inr false, []).
Proof.
  apply (check_login_first_entry_wins DemoLogin.host_twice Demo.env_ok
           [PyStr "ada"; PyStr "bob"; PyStr "ada"]
           [PyStr "sha256:lovelace"; PyStr "sha256:builder"; PyStr "sha256:byron"]
           "ada" "byron" 0 2 (PyStr "sha256:lovelace"));
    try reflexivity.
  discriminate.
Defined.

(** X3. When the passwords table is too short for the position of the
    username, [check_login] does not return: [passwords[index]] raises
    [IndexError], whatever the password. *)
Theorem check_login_short_table_raises
    (host : Host) (env : Env) (usernames passwords : list pyobj)
    (username password : string) (index : nat) :
  secrets_usernames host = Some (PyList usernames) ->
  secrets_passwords host = Some (PyList passwords) ->
  list_index username usernames = Some index ->
  List.length passwords <= index ->
  fst (check_login host env username password) = inl (Builtin IndexError).
Proof.
  intros Hu Hp Hidx Hlen. unfold check_login. rewrite Hu, Hp. simpl fst.
  rewrite verify_login_lists, Hidx.
  now rewrite (proj2 (nth_error_None passwords index) Hlen).
Qed.

(** The theorem at work: [bob] has no entry in the passwords table. *)
Lemma check_login_short_table_raises_witness :
  fst (check_login DemoLogin.host_short Demo.env_ok "bob" "builder")
  = inl (Builtin IndexError).
Proof.
  apply (check_login_short_table_raises DemoLogin.host_short Demo.env_ok
           [PyStr "ada"; PyStr "bob"] [PyStr "sha256:lovelace"]
           "bob" "builder" 1);
    [reflexivity | reflexivity | reflexivity | simpl; lia].
Defined.

(** X4. Without the tables in [st.secrets], and with either environment
    variable unset or not decodable, [check_login] returns [False] for
    every username and password, and shows the error about local
    credentials. *)
Theorem check_login_without_credentials
    (host : Host) (env : Env) (username password : string) :
  secrets_usernames host = None \/ secrets_passwords host = None ->
  (forall raw, getenv host "APP_USERNAMES" = Some raw -> json_loads env raw = None)
  \/ (forall raw, getenv host "APP_PASSWORDS" = Some raw -> json_loads env raw = None) ->
  check_login host env username password
  = (inr false, [print_fallback_info; st_error_local_credentials]).
Proof.
  intros Hsecrets Henv. unfold check_login.
  assert (Hfallback :
    match getenv host "APP_USERNAMES" with
    | None => (inr false, [print_fallback_info; st_error_local_credentials])
    | Some raw_usernames =>
        match json_loads env raw_usernames with
        | None => (inr false, [print_fallback_info; st_error_local_credentials])
        | Some usernames =>
            match getenv host "APP_PASSWORDS" with
            | None => (inr false, [print_fallback_info; st_error_local_credentials])
            | Some raw_passwords =>
                match json_loads env raw_passwords with
                | None =>
                    (inr false, [print_fallback_info; st_error_local_credentials])
                | Some passwords =>
                    (verify_login host usernames passwords username password,
                     [print_fallback_info])
                end
            end
        end
    end = (inr false, [print_fallback_info; st_error_local_credentials])).
  { destruct (getenv host "APP_USERNAMES") as [ru |] eqn:Hru; [| reflexivity].
    destruct (json_loads env ru) as [us |] eqn:Hus; [| reflexivity].
    destruct (getenv host "APP_PASSWORDS") as [rp |] eqn:Hrp; [| reflexivity].
    destruct (json_loads env rp) as [ps |] eqn:Hps; [| reflexivity].
    destruct Henv as [H | H].
    - rewrite (H ru eq_refl) in Hus. discriminate.
    - rewrite (H rp eq_refl) in Hps. discriminate. }
  destruct Hsecrets as [-> | ->].
  - exact Hfallback.
  - destruct (secrets_usernames host); exact Hfallback.
Qed.

(** The theorem at work: a bare host lets nobody in. *)
Lemma check_login_without_credentials_witness :
  check_login DemoLogin.host_bare Demo.env_ok "ada" "lovelace"
  = (inr false, [print_fallback_info; st_error_local_credentials]).
Proof.
  apply check_login_without_credentials.
  - left. reflexivity.
  - left. intros raw H. discriminate.
Defined.

(* ================================================================== *)
(** ** Beyond the claims: what runs before the story pages *)
(* ================================================================== *)

(** X5. A run of a session that is not authenticated never reaches the
    story pages: the story keys stay as they are and neither service is
    called. The session comes out authenticated exactly when the run was a
    press on Login with credentials [check_login] accepts; then the user
    name is stored and a rerun is asked for. Otherwise the login keys stay
    as they are too. *)
Theorem unauthenticated_run_stops_at_login
    (host : Host) (env : Env) (act : app_action) (st st' : AppState)
    (o : app_outcome) (sev : list sidebar_event) (ev : list event) :
  authenticated (auth st) = false ->
  app_run host env act st = (o, st', sev, ev) ->
  story st' = story st
  /\ ev = []
  /\ o <> AppDone
  /\ (authenticated (auth st') = true
      <-> exists username password,
            act = press_login username password
            /\ fst (check_login host env username password) = inr true)
  /\ (authenticated (auth st') = true ->
      o = AppReruns /\ rerun_trigger (auth st') = false
      /\ exists username password,
           act = press_login username password /\ user (auth st') = Some username)
  /\ (authenticated (auth st') = false -> auth st' = auth st).
Proof.
  intros Hauth Hrun. unfold app_run, login_gate in Hrun. rewrite Hauth in Hrun.
  destruct act as [| u p | a]; simpl in Hrun;
    [ | destruct (check_login host env u p) as [[e | [|]] cev] eqn:Hcheck;
        simpl in Hrun | ];
    injection Hrun as <- <- <- <-; simpl; rewrite ?Hauth;
    repeat split; intros;
    repeat match goal with
      | H : exists _, _ |- _ => destruct H
      | H : _ /\ _ |- _ => destruct H
      | H : press_login _ _ = press_login _ _ |- _ => injection H as <- <-
      | H : fst (check_login _ _ _ _) = _ |- _ => rewrite Hcheck in H
      end;
    try discriminate; eauto;
    do 2 eexists; split; [reflexivity | rewrite Hcheck; reflexivity].
Qed.

(** The theorem at work: a page action in a new session changes nothing. *)
Lemma unauthenticated_run_stops_at_login_witness :
  story (snd (fst (fst (app_run DemoLogin.host Demo.env_ok
                          (on_page Demo.set_the_stage) new_app)))) = None.
Proof.
  destruct (app_run DemoLogin.host Demo.env_ok (on_page Demo.set_the_stage) new_app)
    as [[[o st'] sev] ev] eqn:Hrun.
  exact (proj1 (unauthenticated_run_stops_at_login
                  DemoLogin.host Demo.env_ok (on_page Demo.set_the_stage)
                  new_app st' o sev ev eq_refl Hrun)).
Defined.

(** X6. There is no way out of a login: a run of an authenticated session,
    whatever the action (the restart button included) and however the run
    ends, leaves it authenticated, with the same user. *)
Theorem authenticated_session_stays_authenticated
    (host : Host) (env : Env) (act : app_action) (st : AppState) :
  authenticated (auth st) = true ->
  let st' := snd (fst (fst (app_run host env act st))) in
  authenticated (auth st') = true /\ user (auth st') = user (auth st).
Proof.
  intros Hauth. unfold app_run, login_gate. rewrite Hauth.
  destruct (rerun_trigger (auth st)); simpl; [now split |].
  destruct (user (auth st)) as [name |] eqn:Huser; simpl; [| now split].
  destruct (load_api_keys host) as [g k].
  destruct (key_missing g); simpl; [now split |].
  destruct (script (with_stability_key k env) (page_action_of act) (story st))
    as [[[] ss] ev]; simpl; now split.
Qed.

(** The theorem at work: restarting the story keeps [ada] logged in. *)
Lemma authenticated_session_stays_authenticated_witness :
  authenticated (auth (snd (fst (fst
    (app_run DemoLogin.host Demo.env_ok (on_page click_restart)
       {| auth := DemoLogin.logged_in; story := Some Demo.begun |}))))) = true.
Proof.
  exact (proj1 (authenticated_session_stays_authenticated
                  DemoLogin.host Demo.env_ok (on_page click_restart)
                  {| auth := DemoLogin.logged_in; story := Some Demo.begun |}
                  eq_refl)).
Defined.

(** What holds of the login keys between runs. *)
Lemma app_run_invariant host env act st :
  rerun_trigger (auth st) = false ->
  (authenticated (auth st) = true -> user (auth st) <> None) ->
  (authenticated (auth st) = false -> story st = None /\ user (auth st) = None) ->
  let st' := snd (fst (fst (app_run host env act st))) in
  rerun_trigger (auth st') = false
  /\ (authenticated (auth st') = true -> user (auth st') <> None)
  /\ (authenticated (auth st') = false -> story st' = None /\ user (auth st') = None).
Proof.
  intros Htrig Huser Hnone. unfold app_run, login_gate.
  destruct (authenticated (auth st)) eqn:Hauth.
  - rewrite Htrig. specialize (Huser eq_refl).
    destruct (user (auth st)) as [name |] eqn:Hname; [| contradiction].
    destruct (load_api_keys host) as [g k].
    destruct (key_missing g); simpl.
    + rewrite Hauth, Htrig, Hname. repeat split; try discriminate.
    + destruct (script (with_stability_key k env) (page_action_of act) (story st))
        as [[[] ss] ev]; simpl; rewrite Hauth, Htrig, Hname;
        repeat split; try discriminate.
  - destruct (Hnone eq_refl) as [Hstory Hu].
    destruct act as [| u p | a]; simpl; rewrite ?Hauth, ?Htrig;
      try (repeat split; try discriminate; auto; fail).
    destruct (check_login host env u p) as [[e | [|]] cev]; simpl;
      rewrite ?Hauth, ?Htrig; repeat split; try discriminate; auto.
Qed.

(** X7. In every session a user can bring about, the story keys exist only
    once the session is authenticated, an authenticated session has its
    user name (so the welcome line never fails), and no rerun is pending
    between runs. *)
Theorem story_exists_only_after_login (st : AppState) :
  app_reachable st ->
  rerun_trigger (auth st) = false
  /\ (authenticated (auth st) = true -> user (auth st) <> None)
  /\ (authenticated (auth st) = false -> story st = None /\ user (auth st) = None).
Proof.
  induction 1 as [| host env act st _ (Htrig & Huser & Hnone)].
  - repeat split; try discriminate; reflexivity.
  - unfold app_interact.
    pose proof (app_run_invariant host env act st Htrig Huser Hnone) as H1.
    destruct (app_run host env act st) as [[[o st1] sev1] ev1]. simpl in H1.
    destruct H1 as (Htrig1 & Huser1 & Hnone1).
    destruct o; simpl; try exact (conj Htrig1 (conj Huser1 Hnone1)).
    pose proof (app_run_invariant host env idle st1 Htrig1 Huser1 Hnone1) as H2.
    destruct (app_run host env idle st1) as [[[o2 st2] sev2] ev2]. exact H2.
Qed.

(** A login followed by the first page of the story. *)
Lemma app_reachable_logged_in :
  app_reachable {| auth := DemoLogin.logged_in; story := Some fresh_state |}.
Proof.
  replace {| auth := DemoLogin.logged_in; story := Some fresh_state |}
    with (fst (fst (app_interact DemoLogin.host Demo.env_ok
                      (press_login "ada" "lovelace") new_app)))
    by (vm_compute; reflexivity).
  apply app_reach_step, app_reach_new.
Qed.

(** The theorem at work: after [ada] logged in. *)
Lemma story_exists_only_after_login_witness :
  user DemoLogin.logged_in <> None.
Proof.
  apply (proj1 (proj2 (story_exists_only_after_login
                         {| auth := DemoLogin.logged_in; story := Some fresh_state |}
                         app_reachable_logged_in))).
  reflexivity.
Defined.

(** X8. [load_api_keys] finds each key on its own. The secrets are in the
    environment by the time line 85 runs, so the fallback still sees a
    Google secret when the read of the Stability secret raised: each key
    is the secret when there is one, and the variable of the process
    otherwise. With a Google secret that is not empty, a run of an
    authenticated session gets past the key check whether or not there is
    a Stability secret, and the pages run with the Stability key found the
    same way. *)
Theorem load_api_keys_finds_each_key (host : Host) :
  load_api_keys host
  = (getenv host "GOOGLE_API_KEY", getenv host "STABILITY_API_KEY")
  /\ (forall google_api_key,
         secret host "GOOGLE_API_KEY" = Some google_api_key ->
         fst (load_api_keys host) = Some google_api_key)
  /\ (forall stability_api_key,
         secret host "STABILITY_API_KEY" = Some stability_api_key ->
         snd (load_api_keys host) = Some stability_api_key)
  /\ (secret host "GOOGLE_API_KEY" = None ->
      fst (load_api_keys host) = environ host "GOOGLE_API_KEY")
  /\ (secret host "STABILITY_API_KEY" = None ->
      snd (load_api_keys host) = environ host "STABILITY_API_KEY")
  /\ (forall env act st name google_api_key,
         authenticated (auth st) = true ->
         rerun_trigger (auth st) = false ->
         user (auth st) = Some name ->
         secret host "GOOGLE_API_KEY" = Some google_api_key ->
         google_api_key <> "" ->
         let pages :=
           script (with_stability_key (snd (load_api_keys host)) env)
             (page_action_of act) (story st) in
         fst (fst (fst (app_run host env act st))) <> AppStopped
         /\ snd (fst (app_run host env act st)) = [sidebar_success_welcome name]
         /\ story (snd (fst (fst (app_run host env act st)))) = snd (fst pages)
         /\ snd (app_run host env act st) = snd pages).
Proof.
  assert (Hload : load_api_keys host
                  = (getenv host "GOOGLE_API_KEY", getenv host "STABILITY_API_KEY")).
  { unfold load_api_keys, getenv.
    destruct (secret host "GOOGLE_API_KEY"), (secret host "STABILITY_API_KEY");
      reflexivity. }
  split; [exact Hload |]. rewrite Hload. unfold getenv. simpl.
  split; [intros g ->; reflexivity |].
  split; [intros k ->; reflexivity |].
  split; [intros ->; reflexivity |].
  split; [intros ->; reflexivity |].
  intros env act st name g Hauth Htrig Huser Hsecret Hfull.
  unfold app_run, login_gate. rewrite Hauth, Htrig, Huser, Hload.
  unfold getenv. rewrite Hsecret. simpl.
  destruct (String.eqb_spec g ""); [contradiction |].
  destruct (script _ (page_action_of act) (story st)) as [[[] ss] ev]; simpl;
    repeat split; discriminate.
Qed.

(** The theorem at work: the Google key is a secret, the Stability key is
    nowhere, and a press of Set the Stage gets past the key check. *)
Lemma load_api_keys_finds_each_key_witness :
  load_api_keys DemoLogin.host_half = (Some "g-key", None)
  /\ fst (fst (fst (app_run DemoLogin.host_half Demo.env_ok
                      (on_page Demo.set_the_stage)
                      {| auth := DemoLogin.logged_in; story := None |})))
     <> AppStopped
  /\ snd (fst (app_run DemoLogin.host_half Demo.env_ok
                 (on_page Demo.set_the_stage)
                 {| auth := DemoLogin.logged_in; story := None |}))
     = [sidebar_success_welcome "ada"].
Proof.
  destruct (load_api_keys_finds_each_key DemoLogin.host_half)
    as (Hload & _ & _ & _ & _ & Hrun).
  split; [rewrite Hload; reflexivity |].
  destruct (Hrun Demo.env_ok (on_page Demo.set_the_stage)
              {| auth := DemoLogin.logged_in; story := None |} "ada" "g-key"
              eq_refl eq_refl eq_refl eq_refl) as (Hgo & Hside & _).
  - discriminate.
  - split; assumption.
Defined.

(* ================================================================== *)
(** ** Beyond the claims: what the pages keep *)
(* ================================================================== *)

Lemma occurs_in_here p rest : occurs_in p (p ++ rest).
Proof. exists "", rest. reflexivity. Qed.

Lemma occurs_in_later p x rest : occurs_in p rest -> occurs_in p (x ++ rest).
Proof. apply occurs_in_append_l. Qed.

(** Find a piece in a text written as a chain of appends. *)
Ltac find_piece :=
  repeat first
    [ apply occurs_in_here
    | apply occurs_in_later ].

(** X9. A press on Set the Stage in [world_forge] sends one prompt that
    holds the theme, the archetype and the contradiction. If the model
    replies, the reply becomes the world bible, the stage becomes
    [story_start] and a rerun is asked for; if the call raises, the
    exception leaves the page and the state is as it was. *)
Theorem world_forge_page_outcome
    (env : Env) (theme archetype contradiction : string) (s : StoryState) :
  app_stage s = world_forge ->
  let prompt := world_bible_prompt theme archetype contradiction in
  occurs_in theme prompt
  /\ occurs_in archetype prompt
  /\ occurs_in contradiction prompt
  /\ page env (click_set_the_stage theme archetype contradiction) s
     = match generate_content env prompt None with
       | LlmResponse bible =>
           (Reruns,
            {| app_stage := story_start; world_bible := Some bible;
               story_chapters := story_chapters s;
               latest_choices := latest_choices s |},
            [call_generate_content prompt None])
       | LlmRaises e => (Raises e, s, [call_generate_content prompt None])
       end.
Proof.
  intros Hstage prompt. repeat split.
  - unfold prompt, world_bible_prompt. find_piece.
  - unfold prompt, world_bible_prompt. find_piece.
  - unfold prompt, world_bible_prompt. find_piece.
  - run_page. rewrite Hstage. run_handler. unfold generate_world_bible.
    fold prompt. destruct (generate_content env prompt None); reflexivity.
Qed.

(** The theorem at work: forging the sample world. *)
Lemma world_forge_page_outcome_witness :
  final (page Demo.env_ok Demo.set_the_stage) fresh_state = Demo.forged.
Proof.
  destruct (world_forge_page_outcome Demo.env_ok "Revenge" "The Outcast"
              "A city of high magic where everyone is profoundly bored."
              fresh_state eq_refl) as (_ & _ & _ & Hpage).
  unfold final, Demo.set_the_stage. rewrite Hpage. reflexivity.
Defined.

(** X10. Outside [world_forge] no page writes the world bible: whatever
    the action and whatever the services answer, it is after the run what
    it was before. *)
Theorem world_bible_is_fixed (env : Env) (a : action) (s : StoryState) :
  app_stage s <> world_forge ->
  world_bible (final (page env a) s) = world_bible s.
Proof.
  intros Hstage.
  destruct (page_state env a s)
    as [-> | [(t & ar & c & Hwf & _) | [(p & _ & _ & _ & ->)
       | (c & _ & _ & _ & ->)]]]; [reflexivity | contradiction | |].
  - apply (story_start_submit_state env p s).
  - apply (story_cycle_submit_state env c s).
Qed.

(** The theorem at work: the third chapter of the sample story. *)
Lemma world_bible_is_fixed_witness :
  world_bible (final (page Demo.env_ok (click_weave_next_chapter (PyStr "Wait")))
                 Demo.begun)
  = Some "A city of bored wizards.".
Proof.
  apply (world_bible_is_fixed Demo.env_ok (click_weave_next_chapter (PyStr "Wait"))
           Demo.begun).
  discriminate.
Defined.

Lemma starts_with_refl {A : Type} (l : list A) : starts_with l l.
Proof. exists []. now rewrite app_nil_r. Qed.

Lemma starts_with_app {A : Type} (l m x : list A) :
  starts_with l m -> starts_with l (m ++ x)%list.
Proof. intros [r ->]. exists (r ++ x)%list. now rewrite app_assoc. Qed.

Lemma starts_with_tl_app {A : Type} (l m x : list A) :
  starts_with (tl l) (tl m) -> starts_with (tl l) (tl (m ++ x)%list).
Proof.
  destruct m as [| y m]; simpl.
  - intros [r Hr]. destruct l as [| z l]; simpl in *.
    + exists (tl x). reflexivity.
    + symmetry in Hr. apply app_eq_nil in Hr as [-> _]. exists (tl x). reflexivity.
  - apply starts_with_app.
Qed.

Lemma set_image_at_first_tl img l l' :
  set_image_at 0 img l = Some l' -> tl l' = tl l.
Proof.
  destruct l as [| ch rest]; unfold set_image_at; [discriminate |].
  intros H. injection H as <-. reflexivity.
Qed.

Lemma keeps_chapters_refl l : keeps_chapters l l.
Proof. split; apply starts_with_refl. Qed.

Lemma keeps_chapters_app old new x :
  keeps_chapters old new -> keeps_chapters old (new ++ x)%list.
Proof.
  intros [Ht Hi]. split.
  - rewrite map_app. now apply starts_with_app.
  - now apply starts_with_tl_app.
Qed.

Lemma keeps_chapters_set_image old new img l :
  keeps_chapters old new -> set_image_at 0 img new = Some l -> keeps_chapters old l.
Proof.
  intros [Ht Hi] Hset. split.
  - now rewrite (set_image_at_texts _ _ _ _ Hset).
  - now rewrite (set_image_at_first_tl _ _ _ Hset).
Qed.

Lemma story_start_submit_keeps env initial_prompt s :
  keeps_chapters (story_chapters s)
    (story_chapters (final (story_start_submit env initial_prompt) s)).
Proof.
  run_handler. split_paths; simpl;
    repeat match goal with
      | |- keeps_chapters ?l ?l => apply keeps_chapters_refl
      | |- keeps_chapters _ (_ ++ _)%list => apply keeps_chapters_app
      | H : set_image_at 0 _ _ = Some ?l |- keeps_chapters _ ?l =>
          apply (keeps_chapters_set_image _ _ _ _ ltac:(
                   apply keeps_chapters_app, keeps_chapters_refl) H)
      end.
Qed.

Lemma story_cycle_submit_keeps env choice_made s :
  keeps_chapters (story_chapters s)
    (story_chapters (final (story_cycle_submit env choice_made) s)).
Proof.
  run_handler. split_paths; simpl;
    repeat match goal with
      | |- keeps_chapters ?l ?l => apply keeps_chapters_refl
      | |- keeps_chapters _ (_ ++ _)%list => apply keeps_chapters_app
      end.
Qed.

(** X11. The chapter list only grows at its end. Whatever the stage, the
    action and the answers of the services, and however the run ends, the
    texts of the chapters that were there are still there, in order, at
    the head of the list, and every chapter but the first is as it was
    (the image of the first may be assigned by [story_start]). *)
Theorem chapters_are_append_only (env : Env) (a : action) (s : StoryState) :
  keeps_chapters (story_chapters s) (story_chapters (final (page env a) s))
  /\ List.length (story_chapters s)
     <= List.length (story_chapters (final (page env a) s)).
Proof.
  assert (Hkeep : keeps_chapters (story_chapters s)
                    (story_chapters (final (page env a) s))).
  { destruct (page_state env a s)
      as [-> | [(t & ar & c & _ & _ & ->) | [(p & _ & _ & _ & ->)
         | (c & _ & _ & _ & ->)]]].
    - apply keeps_chapters_refl.
    - destruct (world_forge_submit_state env t ar c s) as [-> | [b ->]];
        apply keeps_chapters_refl.
    - apply story_start_submit_keeps.
    - apply story_cycle_submit_keeps. }
  split; [exact Hkeep |].
  destruct Hkeep as [[r Hr] _].
  rewrite <- (length_map text (story_chapters (final (page env a) s))), Hr.
  rewrite length_app, length_map. lia.
Qed.

(** X12. No page moves the stage back: from [world_forge] a run ends in
    [world_forge] or [story_start], from [story_start] in [story_start] or
    [story_cycle], and from [story_cycle] in [story_cycle]. *)
Theorem stage_never_moves_back (env : Env) (a : action) (s : StoryState) :
  stage_le (app_stage s) (app_stage (final (page env a) s)) = true
  /\ (app_stage s = world_forge ->
      app_stage (final (page env a) s) <> story_cycle).
Proof.
  destruct (page_state env a s)
    as [-> | [(t & ar & c & Hstage & _ & ->) | [(p & Hstage & _ & _ & ->)
       | (c & Hstage & _ & _ & ->)]]].
  - split; [now destruct (app_stage s) | congruence].
  - rewrite Hstage.
    destruct (world_forge_submit_state env t ar c s) as [-> | [b ->]];
      rewrite ?Hstage; simpl; split; auto; discriminate.
  - destruct (story_start_submit_state env p s) as [_ [[-> _] | [-> _]]];
      rewrite Hstage; split; auto; discriminate.
  - destruct (story_cycle_submit_state env c s) as (_ & -> & _).
    rewrite Hstage. split; auto; discriminate.
Qed.

(** X13. What a reply with a missing key does to a [story_cycle]
    submission. Without [image_prompt] the [KeyError] comes before
    anything is written or drawn by the illustration helper. Without
    [narrative_chapter] it comes after the illustration call and nothing is
    written. Without [next_choices] it comes after the chapter was
    appended: the chapter stays, the choices are the old ones, and no
    rerun is asked for. *)
Theorem story_cycle_reply_with_missing_key
    (env : Env) (s : StoryState) (choice_made ai_response : pyobj)
    (story_so_far : string) :
  join_values " " (map text (story_chapters s)) = inr story_so_far ->
  fst (generate_story_chapter env story_so_far (world_bible s) choice_made)
  = Returns ai_response ->
  truthy ai_response = true ->
  let run := story_cycle_submit env choice_made in
  (forall e, getitem_key ai_response "image_prompt" = inl e ->
      result run s = Raises e /\ final run s = s
      /\ trace run s
         = snd (generate_story_chapter env story_so_far (world_bible s) choice_made))
  /\
  (forall image_prompt e,
      getitem_key ai_response "image_prompt" = inr image_prompt ->
      getitem_key ai_response "narrative_chapter" = inl e ->
      result run s = Raises e /\ final run s = s)
  /\
  (forall image_prompt narrative_chapter new_image e,
      getitem_key ai_response "image_prompt" = inr image_prompt ->
      getitem_key ai_response "narrative_chapter" = inr narrative_chapter ->
      fst (generate_image_stability env image_prompt) = Returns new_image ->
      getitem_key ai_response "next_choices" = inl e ->
      result run s = Raises e
      /\ final run s
         = append_chapter {| text := narrative_chapter; image := new_image |} s).
Proof.
  intros Hjoin Hgen Htruthy run. subst run. run_handler. rewrite Hjoin.
  destruct (generate_story_chapter env story_so_far (world_bible s) choice_made)
    as [r ev]. simpl in Hgen. subst r. simpl. rewrite Htruthy.
  split; [| split].
  - intros e He. rewrite He. simpl. rewrite app_nil_r. auto.
  - intros ip e Hip He. rewrite Hip. simpl.
    destruct (generate_image_stability_returns env ip) as [img Himg].
    destruct (generate_image_stability env ip) as [r2 ev2]. simpl in Himg.
    subst r2. simpl. rewrite He. simpl. auto.
  - intros ip nc img e Hip Hnc Himg He. rewrite Hip. simpl.
    destruct (generate_image_stability env ip) as [r2 ev2]. simpl in Himg.
    subst r2. simpl. rewrite Hnc. simpl. rewrite He. simpl. auto.
Qed.

(** The theorem at work: a reply without [next_choices] leaves a third
    chapter and the old choices. *)
Lemma story_cycle_reply_with_missing_key_witness :
  final (story_cycle_submit DemoLogin.env_without_choices (PyStr "Wait")) Demo.begun
  = append_chapter {| text := PyStr "The clock stopped."; image := None |} Demo.begun.
Proof.
  assert (Hjoin : join_values " " (map text (story_chapters Demo.begun))
                  = inr (Demo.opening ++ " " ++ "The clock stopped."))
    by reflexivity.
  assert (Hgen : fst (generate_story_chapter DemoLogin.env_without_choices
                        (Demo.opening ++ " " ++ "The clock stopped.")
                        (world_bible Demo.begun) (PyStr "Wait"))
                 = Returns DemoLogin.reply_without_choices)
    by (vm_compute; reflexivity).
  destruct (story_cycle_reply_with_missing_key
              DemoLogin.env_without_choices Demo.begun (PyStr "Wait")
              DemoLogin.reply_without_choices
              (Demo.opening ++ " " ++ "The clock stopped.") Hjoin Hgen eq_refl)
    as (_ & _ & Hchoices).
  apply (Hchoices (PyStr "starship, clock") (PyStr "The clock stopped.") None KeyError);
    reflexivity.
Defined.

(** X14. What a reply without [next_choices] does to a [story_start]
    submission: the opening and the continuation are both appended, and
    then the [KeyError] ends the run with the stage still [story_start]
    and the choices untouched. *)
Theorem story_start_reply_without_choices
    (env : Env) (s : StoryState) (initial_prompt : string)
    (ai_response image_prompt narrative_chapter : pyobj) (e : exn) :
  fst (generate_story_chapter env "" (world_bible s) (PyStr initial_prompt))
  = Returns ai_response ->
  truthy ai_response = true ->
  getitem_key ai_response "image_prompt" = inr image_prompt ->
  getitem_key ai_response "narrative_chapter" = inr narrative_chapter ->
  getitem_key ai_response "next_choices" = inl e ->
  let run := story_start_submit env initial_prompt in
  result run s = Raises e
  /\ app_stage (final run s) = app_stage s
  /\ latest_choices (final run s) = latest_choices s
  /\ map text (story_chapters (final run s))
     = (map text (story_chapters s) ++ [PyStr initial_prompt; narrative_chapter])%list.
Proof.
  intros Hgen Htruthy Hip Hnc Hch run. subst run. run_handler. simpl.
  destruct (generate_story_chapter env "" (world_bible s) (PyStr initial_prompt))
    as [r ev]. simpl in Hgen. subst r. simpl. rewrite Htruthy, Hip. simpl.
  destruct (generate_image_stability_returns env image_prompt) as [img Himg].
  destruct (generate_image_stability env image_prompt) as [r2 ev2].
  simpl in Himg. subst r2. simpl.
  destruct (set_image_at 0 img
              (story_chapters s ++ [{| text := PyStr initial_prompt; image := None |}]))
    as [l |] eqn:Hset.
  - simpl. rewrite Hnc. simpl. rewrite Hch. simpl. repeat split.
    rewrite map_app, (set_image_at_texts _ _ _ _ Hset), map_app, <- app_assoc.
    reflexivity.
  - exfalso. destruct (story_chapters s); discriminate.
Qed.

(** The theorem at work: the opening of the sample story with such a reply
    leaves two chapters on the [story_start] page. *)
Lemma story_start_reply_without_choices_witness :
  app_stage (final (story_start_submit DemoLogin.env_without_choices Demo.opening)
               Demo.forged) = story_start.
Proof.
  apply (story_start_reply_without_choices
           DemoLogin.env_without_choices Demo.forged Demo.opening
           DemoLogin.reply_without_choices (PyStr "starship, clock")
           (PyStr "The clock stopped.") KeyError);
    vm_compute; reflexivity.
Defined.

(* ================================================================== *)
(** ** Beyond the claims: runs that submit nothing *)
(* ================================================================== *)

Lemma render_has_no_service_call env chapters :
  forallb (fun ev => negb (is_service_call ev))
    (flat_map (render_chapter env) chapters) = true.
Proof.
  induction chapters as [| ch rest IH]; [reflexivity |].
  simpl. rewrite forallb_app, IH, andb_true_r.
  unfold render_chapter. destruct (image ch); reflexivity.
Qed.

(** X15. A run whose action no handler answers writes nothing and calls
    neither service: no action at all, Narrate, Pause, Stop, the restart
    button (before its rerun), Start the Saga with an empty sentence, Weave
    Next Chapter while the choices are empty, and any button of another
    stage. *)
Theorem unhandled_action_changes_nothing (env : Env) (a : action) (s : StoryState) :
  handled s a = false ->
  final (page env a) s = s
  /\ forallb (fun ev => negb (is_service_call ev)) (trace (page env a) s) = true.
Proof.
  unfold handled. intros Hnot. run_page.
  pose proof (render_has_no_service_call env (story_chapters s)) as Hrender.
  destruct (app_stage s) eqn:Hstage.
  - destruct a; try discriminate; simpl; auto.
  - destruct a; simpl; auto.
    apply negb_false_iff in Hnot. rewrite Hnot. simpl. auto.
  - simpl. destruct (story_chapters s) as [| ch rest] eqn:Hch.
    + simpl. destruct (truthy (latest_choices s)); simpl; auto.
      destruct a; try discriminate; simpl; auto.
    + destruct (join_values " " (map text (ch :: rest))) as [e | full].
      * simpl. rewrite app_nil_r. auto.
      * unfold text_to_speech_player. simpl in Hrender.
        rewrite forallb_app in Hrender.
        destruct (truthy (latest_choices s)); destruct a; try discriminate;
          simpl; rewrite ?app_nil_r, ?forallb_app, ?Hrender;
          split; reflexivity.
Qed.

(** The theorem at work: an empty opening sentence is ignored. *)
Lemma unhandled_action_changes_nothing_witness :
  final (page Demo.env_ok (click_start_the_saga "")) Demo.forged = Demo.forged.
Proof.
  exact (proj1 (unhandled_action_changes_nothing Demo.env_ok
                  (click_start_the_saga "") Demo.forged eq_refl)).
Defined.

(** X16. Narrate reads the whole story: on the [story_cycle] page, with
    chapters whose texts are strings, the run draws the chapters and then
    one script whose utterance is [safe_text] of all chapter texts joined
    by single spaces, in order. *)
Theorem narrate_speaks_every_chapter
    (env : Env) (s : StoryState) (texts : list string) :
  app_stage s = story_cycle ->
  story_chapters s <> [] ->
  map text (story_chapters s) = map PyStr texts ->
  trace (page env click_narrate) s
  = (flat_map (render_chapter env) (story_chapters s)
     ++ [components_html
           (speech_script_head ++ safe_text (join " " texts) ++ speech_script_tail)])%list.
Proof.
  intros Hstage Hne Htexts. run_page. rewrite Hstage. simpl.
  assert (Hstr : all_str (map PyStr texts) = inr texts).
  { clear. induction texts as [| t rest IH]; simpl; [reflexivity |].
    now rewrite IH. }
  destruct (story_chapters s) as [| ch rest] eqn:Hch; [contradiction |].
  unfold join_values. rewrite Htexts, Hstr. unfold text_to_speech_player. simpl.
  destruct (truthy (latest_choices s)); simpl; now rewrite ?app_nil_r.
Qed.

(** The theorem at work: the sample story is read from its opening on. *)
Lemma narrate_speaks_every_chapter_witness :
  In (components_html
        (speech_script_head
         ++ safe_text (Demo.opening ++ " " ++ "The clock stopped.")
         ++ speech_script_tail))
     (trace (page Demo.env_ok click_narrate) Demo.begun).
Proof.
  rewrite (narrate_speaks_every_chapter Demo.env_ok Demo.begun
             [Demo.opening; "The clock stopped."] eq_refl);
    [| discriminate | reflexivity].
  apply in_or_app. right. left. reflexivity.
Defined.

Lemma all_str_error l e : all_str l = inl e -> e = TypeError.
Proof.
  induction l as [| v rest IH]; simpl; [discriminate |].
  destruct v; try (intros H; now injection H).
  destruct (all_str rest); [| discriminate].
  intros H. injection H as <-. now apply IH.
Qed.

Lemma all_str_not_str l ch :
  In ch l -> (forall t, text ch <> PyStr t) ->
  all_str (map text l) = inl TypeError.
Proof.
  intros Hin Hbad.
  destruct (all_str (map text l)) as [e | texts] eqn:Hall.
  - now rewrite (all_str_error _ _ Hall).
  - exfalso. apply all_str_map in Hall.
    apply (in_map text) in Hin. rewrite <- Hall in Hin.
    apply in_map_iff in Hin as (t & Ht & _). exact (Hbad t (eq_sym Ht)).
Qed.

(** X17. A chapter whose text is not a string locks the [story_cycle]
    page: every run, whatever the action, draws the chapters and ends in
    [TypeError] at the join, with the state as it was. The choice form and
    the restart button below are never reached. *)
Theorem non_string_chapter_locks_the_page
    (env : Env) (a : action) (s : StoryState) (ch : Chapter) :
  app_stage s = story_cycle ->
  In ch (story_chapters s) ->
  (forall t, text ch <> PyStr t) ->
  script env a (Some s)
  = (Raises TypeError, Some s, flat_map (render_chapter env) (story_chapters s)).
Proof.
  intros Hstage Hin Hbad. unfold script. simpl init_session. run_page.
  rewrite Hstage. simpl.
  pose proof (all_str_not_str _ _ Hin Hbad) as Hall.
  destruct (story_chapters s) as [| c0 rest] eqn:Hch; [contradiction |].
  unfold join_values. rewrite Hall. simpl. now rewrite app_nil_r.
Qed.

(** The theorem at work: the restart button does nothing for a story with
    a number as a chapter text. *)
Lemma non_string_chapter_locks_the_page_witness :
  fst (script Demo.env_ok click_restart (Some DemoLogin.broken))
  = (Raises TypeError, Some DemoLogin.broken).
Proof.
  rewrite (non_string_chapter_locks_the_page Demo.env_ok click_restart
             DemoLogin.broken {| text := PyInt 7; image := None |} eq_refl).
  - reflexivity.
  - right. left. reflexivity.
  - intros t. discriminate.
Defined.

(* ================================================================== *)
(** ** Beyond the claims: the illustration helper *)
(* ================================================================== *)

(** X18. The Stability endpoint is called at most once for an image, and
    not at all without a key: then the helper only warns and returns
    [None]. With a key the run opens with one call, for the image prompt
    with its fixed lead-in, and whatever follows is drawn on the page. *)
Theorem stability_is_called_at_most_once (env : Env) (prompt : pyobj) :
  let out := generate_image_stability env prompt in
  (key_missing (STABILITY_API_KEY env) = true ->
   out = (Returns None, [st_warning WarnStabilityKeyNotFound]))
  /\
  (key_missing (STABILITY_API_KEY env) = false ->
   exists rest,
     snd out = call_requests_post (stability_text env prompt) :: rest
     /\ forallb (fun ev => negb (is_service_call ev)) rest = true).
Proof.
  unfold generate_image_stability, stability_text. split; intros Hkey; rewrite Hkey.
  - reflexivity.
  - repeat match goal with
      | |- context [match ?x with _ => _ end] =>
          lazymatch x with
          | context [match _ with _ => _ end] => fail
          | _ => destruct x
          end
      | |- context [if ?x then _ else _] => destruct x
      end; eexists; split; reflexivity.
Qed.

(** X19. The illustration helper returns an image exactly when a key is
    configured, the endpoint answers outside 4xx and 5xx, the body
    decodes, [artifacts[0].base64] is a string, and that string decodes
    to the image; then it draws nothing. *)
Theorem illustration_succeeds_iff (env : Env) (prompt : pyobj) (img : Image) :
  fst (generate_image_stability env prompt) = Returns (Some img)
  <-> key_missing (STABILITY_API_KEY env) = false
      /\ exists status_code body data image_b64,
           requests_post env (stability_text env prompt)
           = PostResponse status_code body
           /\ raise_for_status status_code = false
           /\ json_loads env body = Some data
           /\ artifact_base64 data = inr (PyStr image_b64)
           /\ open_image env image_b64 = Some img
           /\ snd (generate_image_stability env prompt)
              = [call_requests_post (stability_text env prompt)].
Proof.
  unfold generate_image_stability, stability_text. split.
  - destruct (key_missing (STABILITY_API_KEY env)); [discriminate |].
    destruct (requests_post env _) as [e | code body] eqn:Hpost; [discriminate |].
    destruct (raise_for_status code) eqn:Hstatus.
    + destruct (json_loads env body); discriminate.
    + destruct (json_loads env body) as [data |] eqn:Hdata; [| discriminate].
      destruct (artifact_base64 data) as [[] | []] eqn:Hart; try discriminate.
      destruct (open_image env s) as [i |] eqn:Himg; [| discriminate].
      intros H. injection H as ->. split; [reflexivity |].
      exists code, body, data, s. repeat split; auto.
  - intros (Hkey & code & body & data & b & Hpost & Hstatus & Hdata & Hart & Himg & _).
    now rewrite Hkey, Hpost, Hstatus, Hdata, Hart, Himg.
Qed.

(* ================================================================== *)
(** ** Beyond the claims: replies without a fence *)
(* ================================================================== *)

Lemma rstrip_idempotent s : rstrip (rstrip s) = rstrip s.
Proof.
  induction s as [| c s IH]; [reflexivity |].
  simpl. destruct (rstrip s) as [| c' r] eqn:Hr.
  - destruct (is_space c) eqn:Hc; [reflexivity |]. simpl. now rewrite Hc.
  - change (rstrip (String c (String c' r)))
      with (match rstrip (String c' r) with
            | EmptyString => if is_space c then EmptyString else String c EmptyString
            | String _ _ as r0 => String c r0
            end).
    now rewrite IH.
Qed.

Lemma lstrip_rstrip_lstrip s : lstrip (rstrip (lstrip s)) = rstrip (lstrip s).
Proof.
  induction s as [| c s IH]; [reflexivity |].
  simpl. destruct (is_space c) eqn:Hc; [exact IH |].
  simpl. destruct (rstrip s); rewrite ?Hc; simpl; now rewrite Hc.
Qed.

Lemma strip_idempotent s : strip (strip s) = strip s.
Proof.
  unfold strip. now rewrite lstrip_rstrip_lstrip, rstrip_idempotent.
Qed.

Lemma replace_scan_without_backtick old new s :
  all_chars not_backtick s = true ->
  replace_scan (String "`" old) new 0 s = s.
Proof.
  induction s as [| c s IH]; [reflexivity |].
  simpl all_chars. intros H. apply andb_prop in H as [Hc Hs].
  rewrite replace_scan_miss by (now apply prefix_backtick).
  now rewrite IH.
Qed.

(** X20. A reply without any backtick reaches [json.loads] as it came,
    less the blanks around it: the two replacements change nothing. *)
Theorem clean_json_string_without_fence (response_text : string) :
  all_chars not_backtick response_text = true ->
  clean_json_string response_text = strip response_text.
Proof.
  intros H. unfold clean_json_string, replace.
  assert (Hstrip : all_chars not_backtick (strip response_text) = true)
    by (unfold strip; now apply all_chars_rstrip, all_chars_lstrip).
  rewrite !(replace_scan_without_backtick _ _ _ Hstrip).
  apply strip_idempotent.
Qed.

(** The theorem at work: the bare JSON of the sample reply. *)
Lemma clean_json_string_without_fence_witness :
  clean_json_string (" " ++ Demo.reply_json ++ nl) = Demo.reply_json.
Proof.
  rewrite (clean_json_string_without_fence (" " ++ Demo.reply_json ++ nl));
    vm_compute; reflexivity.
Defined.

(* ================================================================== *)
(** ** Beyond the claims: the world bible and the first illustration *)
(* ================================================================== *)

Lemma page_bible_invariant env a s :
  bible_invariant s -> bible_invariant (final (page env a) s).
Proof.
  intros Hinv.
  destruct (page_state env a s)
    as [-> | [(t & ar & c & Hstage & _ & ->) | [(p & Hstage & _ & _ & ->)
       | (c & Hstage & _ & _ & ->)]]]; [assumption | | |].
  - destruct (world_forge_submit_state env t ar c s) as [-> | [b ->]];
      [assumption |]. unfold bible_invariant. simpl. eauto.
  - unfold bible_invariant in *. rewrite Hstage in Hinv.
    destruct (story_start_submit_state env p s) as [-> [[-> _] | [-> _]]];
      rewrite ?Hstage; assumption.
  - unfold bible_invariant in *. rewrite Hstage in Hinv.
    destruct (story_cycle_submit_state env c s) as (-> & -> & _).
    now rewrite Hstage.
Qed.

Lemma script_bible_invariant env a ss :
  bible_invariant (init_session ss) ->
  bible_invariant (init_session (snd (fst (script env a ss)))).
Proof.
  intros Hinv. unfold script.
  pose proof (page_bible_invariant env a (init_session ss) Hinv) as Hpage.
  unfold final in Hpage.
  destruct (page env a (init_session ss)) as [[r s'] ev]. simpl in Hpage.
  destruct r; simpl; try assumption.
  unfold restart_section.
  destruct (negb (Stage_eqb (app_stage s') world_forge)); simpl; [| assumption].
  destruct a; simpl; try assumption. reflexivity.
Qed.

(** X21. In every session a user can bring about, the world bible is
    absent in [world_forge] and present in the two later stages: no
    chapter prompt is ever built from a missing bible. *)
Theorem world_bible_present_after_world_forge (ss : Session) :
  reachable ss ->
  let s := init_session ss in
  (app_stage s = world_forge -> world_bible s = None)
  /\ (app_stage s <> world_forge -> exists bible, world_bible s = Some bible).
Proof.
  intros Hreach s.
  assert (Hinv : bible_invariant s).
  { subst s. induction Hreach as [| env a ss _ IH _]; [reflexivity |].
    unfold interact.
    pose proof (script_bible_invariant env a ss IH) as H1.
    destruct (script env a ss) as [[r ss1] ev1]. simpl in H1.
    destruct r; simpl; try assumption.
    pose proof (script_bible_invariant env no_action ss1 H1) as H2.
    destruct (script env no_action ss1) as [[r2 ss2] ev2]. exact H2. }
  unfold bible_invariant in Hinv.
  destruct (app_stage s); split; intros H; try assumption; try discriminate;
    try contradiction.
Qed.

(** The theorem at work: the sample story has its bible. *)
Lemma world_bible_present_after_world_forge_witness :
  exists bible, world_bible Demo.begun = Some bible.
Proof.
  apply (proj2 (world_bible_present_after_world_forge (Some Demo.begun)
                  reachable_begun)).
  discriminate.
Defined.

(** X22. In a [story_start] submission that runs to its rerun, the image
    made from the reply goes to the first chapter of the list, whose text
    stays, and the continuation appended at the end has no image. *)
Theorem story_start_illustrates_first_chapter
    (env : Env) (s : StoryState) (initial_prompt : string) :
  result (story_start_submit env initial_prompt) s = Reruns ->
  exists ai_response image_prompt new_image narrative_chapter first_text rest,
    fst (generate_story_chapter env "" (world_bible s) (PyStr initial_prompt))
    = Returns ai_response
    /\ getitem_key ai_response "image_prompt" = inr image_prompt
    /\ fst (generate_image_stability env image_prompt) = Returns new_image
    /\ getitem_key ai_response "narrative_chapter" = inr narrative_chapter
    /\ hd_error (map text (story_chapters s ++ [ {| text := PyStr initial_prompt;
                                                    image := None |} ])%list)
       = Some first_text
    /\ story_chapters (final (story_start_submit env initial_prompt) s)
       = ({| text := first_text; image := new_image |} :: rest
          ++ [ {| text := narrative_chapter; image := None |} ])%list.
Proof.
  intros Hok.
  destruct (story_start_reruns_inv env s initial_prompt Hok)
    as (v & ip & img & nc & ch & l & Hgen & _ & Hip & Himg & Hnc & _ & Hset & ->).
  simpl.
  destruct (story_chapters s ++ [{| text := PyStr initial_prompt; image := None |}])%list
    as [| c0 tail] eqn:Hl; unfold set_image_at in Hset; [discriminate |].
  injection Hset as <-.
  exists v, ip, img, nc, (text c0), tail. repeat split; auto.
Qed.

(** The theorem at work: the opening of the sample story. *)
Lemma story_start_illustrates_first_chapter_witness :
  exists new_image rest,
    story_chapters (final (story_start_submit Demo.env_ok Demo.opening) Demo.forged)
    = ({| text := PyStr Demo.opening; image := new_image |} :: rest
       ++ [ {| text := PyStr "The clock stopped."; image := None |} ])%list.
Proof.
  assert (Hok : result (story_start_submit Demo.env_ok Demo.opening) Demo.forged
                = Reruns) by (vm_compute; reflexivity).
  destruct (story_start_illustrates_first_chapter Demo.env_ok Demo.forged
              Demo.opening Hok)
    as (v & ip & img & nc & t & rest & Hgen & _ & _ & Hnc & Ht & Hfinal).
  exists img, rest. rewrite Hfinal. injection Ht as <-.
  assert (Hv : fst (generate_story_chapter Demo.env_ok ""
                      (world_bible Demo.forged) (PyStr Demo.opening))
               = Returns Demo.reply) by (vm_compute; reflexivity).
  rewrite Hv in Hgen. injection Hgen as <-.
  vm_compute in Hnc. injection Hnc as <-. reflexivity.
Defined.

(* ================================================================== *)
(** ** Beyond the claims: narration and restart at work *)
(* ================================================================== *)

(** [safe_text_without_backslash] at work: a sentence with both quotes and
    a line feed. *)
Lemma safe_text_without_backslash_witness :
  has_unescaped false
    (safe_text ("She said " ++ dq ++ "it's late" ++ dq ++ nl ++ "and left."))
  = false.
Proof.
  apply (safe_text_without_backslash
           ("She said " ++ dq ++ "it's late" ++ dq ++ nl ++ "and left.")).
  vm_compute. reflexivity.
Defined.

